(** * Verification of the warehouse scanner (escaner-bodega)

    Shallow embedding of the two modules of the repository:
    - [src/meli_envios2.py]: token store with refresh, the authenticated
      request wrapper [_meli_request], the ME2 label eligibility check
      [_explicacion_estado_label], the label download
      [_meli_download_label_pdf], the shipment lookups by pack and by order,
      [url_disponible], [_meli_ready_to_ship] and the high-level download
      [descargar_etiqueta_por_order_o_pack];
    - [src/streamlit_app.py]: the label download [download_label_pdf], the
      scan handler [process_scan], the order-sync upsert of
      [sync_meli_orders], the note extraction [_extract_notes_list] and
      [upsert_order_note].

    Python values decoded from JSON are modelled by [json]; Python
    exceptions by [exc]; the outside world (HTTP server, OAuth server, file
    system, database) by explicit state with oracles for the answers. *)

From Stdlib Require Import String Ascii List ZArith Bool Lia.
Import ListNotations.
Open Scope string_scope.
Set Warnings "-register-all".

(* ================================================================== *)
(** ** Python values *)

Module Py.

(** A JSON value as [json.loads] returns it: [None], bools, numbers
    (integers only), strings, lists and dicts (a dict is its list of
    items, keys unique, in insertion order). *)
Inductive json : Type :=
| JNull
| JBool (b : bool)
| JNum (z : Z)
| JStr (s : string)
| JArr (l : list json)
| JObj (fields : list (string * json)).

(** Python exceptions that the modelled code can raise. *)
Inductive exc : Type :=
| AttributeError   (* [.get] on a value that is not a dict *)
| TypeError        (* unhashable value tested against a set *)
| JSONDecodeError  (* [r.json()] on a body that is not JSON *)
| RequestException (* network failure inside [requests] *).

(** Outcome of a Python computation: a value, or a raised exception. *)
Inductive res (A : Type) : Type :=
| Ok (a : A)
| Raise (e : exc).
Arguments Ok {A} a.
Arguments Raise {A} e.

Definition res_bind {A B} (m : res A) (k : A -> res B) : res B :=
  match m with
  | Ok a => k a
  | Raise e => Raise e
  end.

Declare Scope res_scope.
Notation "x <- m ;; k" := (res_bind m (fun x => k))
  (at level 61, m at next level, right associativity) : res_scope.
Open Scope res_scope.

(** Python truthiness ([bool(x)]). *)
Definition truthy (j : json) : bool :=
  match j with
  | JNull => false
  | JBool b => b
  | JNum z => negb (Z.eqb z 0)
  | JStr s => negb (String.eqb s "")
  | JArr l => match l with [] => false | _ => true end
  | JObj l => match l with [] => false | _ => true end
  end.

(** [a or b] *)
Definition py_or (a b : json) : json := if truthy a then a else b.

(** Dict lookup of a key in the items of a dict. *)
Fixpoint lookup (k : string) (l : list (string * json)) : option json :=
  match l with
  | [] => None
  | (k', v) :: l' => if String.eqb k k' then Some v else lookup k l'
  end.

(** [d.get(k)]: [None] when the key is absent; raises [AttributeError]
    when [d] is not a dict. *)
Definition get (d : json) (k : string) : res json :=
  match d with
  | JObj l => Ok (match lookup k l with Some v => v | None => JNull end)
  | _ => Raise AttributeError
  end.

(** [x == "s"] for a JSON value [x] and a string literal. *)
Definition eq_str (j : json) (s : string) : bool :=
  match j with
  | JStr t => String.eqb t s
  | _ => false
  end.

(** [x in {"s1", ..., "sn"}]: a list or dict is unhashable and raises. *)
Definition in_str_set (j : json) (set : list string) : res bool :=
  match j with
  | JArr _ | JObj _ => Raise TypeError
  | _ => Ok (existsb (eq_str j) set)
  end.

(** Decimal rendering of an integer, as [str(int)]. *)
Fixpoint digits_rev (fuel : nat) (n : N) : list ascii :=
  match fuel with
  | O => []
  | S f =>
      let d := N.modulo n 10 in
      let c := ascii_of_N (48 + d) in
      if N.ltb n 10 then [c] else c :: digits_rev f (N.div n 10)
  end.

Definition str_of_N (n : N) : string :=
  string_of_list_ascii (rev (digits_rev (S (N.size_nat n)) n)).

Definition str_of_Z (z : Z) : string :=
  match z with
  | Zneg p => "-" ++ str_of_N (Npos p)
  | _ => str_of_N (Z.to_N z)
  end.

Fixpoint join (sep : string) (l : list string) : string :=
  match l with
  | [] => ""
  | [s] => s
  | s :: l' => s ++ sep ++ join sep l'
  end.

(** [str(x)] and [repr(x)] of a JSON value (string quoting simplified to
    single quotes without escapes). *)
Fixpoint repr (j : json) : string :=
  match j with
  | JNull => "None"
  | JBool true => "True"
  | JBool false => "False"
  | JNum z => str_of_Z z
  | JStr s => "'" ++ s ++ "'"
  | JArr l => "[" ++ join ", " (map repr l) ++ "]"
  | JObj l =>
      "{" ++ join ", " (map (fun kv => "'" ++ fst kv ++ "': " ++ repr (snd kv)) l)
      ++ "}"
  end.

Definition py_str (j : json) : string :=
  match j with
  | JStr s => s
  | _ => repr j
  end.

(** Python [str.strip()]: it removes the characters for which
    [str.isspace()] holds, U+0009..U+000D, U+001C..U+0020, U+0085, U+00A0,
    U+1680, U+2000..U+200A, U+2028, U+2029, U+202F, U+205F and U+3000.
    Strings are their UTF-8 encoding (as Rocq string literals are), so a
    whitespace character is one, two or three bytes. *)
Definition is_space (c : ascii) : bool :=
  match nat_of_ascii c with
  | 9 | 10 | 11 | 12 | 13 | 28 | 29 | 30 | 31 | 32 => true
  | _ => false
  end.

(** the two-byte encodings C2 85 and C2 A0 *)
Definition is_space2 (c1 c2 : ascii) : bool :=
  Nat.eqb (nat_of_ascii c1) 194 &&
  (Nat.eqb (nat_of_ascii c2) 133 || Nat.eqb (nat_of_ascii c2) 160).

(** the three-byte encodings: E1 9A 80; E2 80 80..8A, A8, A9, AF;
    E2 81 9F; E3 80 80 *)
Definition is_space3 (c1 c2 c3 : ascii) : bool :=
  let b1 := nat_of_ascii c1 in
  let b2 := nat_of_ascii c2 in
  let b3 := nat_of_ascii c3 in
  (Nat.eqb b1 225 && Nat.eqb b2 154 && Nat.eqb b3 128) ||
  (Nat.eqb b1 226 && Nat.eqb b2 128 &&
     ((Nat.leb 128 b3 && Nat.leb b3 138) || Nat.eqb b3 168 || Nat.eqb b3 169 || Nat.eqb b3 175)) ||
  (Nat.eqb b1 226 && Nat.eqb b2 129 && Nat.eqb b3 159) ||
  (Nat.eqb b1 227 && Nat.eqb b2 128 && Nat.eqb b3 128).

(** drops the leading whitespace characters *)
Fixpoint lstrip_l (l : list ascii) : list ascii :=
  match l with
  | c1 :: l1 =>
      if is_space c1 then lstrip_l l1 else
      match l1 with
      | c2 :: l2 =>
          if is_space2 c1 c2 then lstrip_l l2 else
          match l2 with
          | c3 :: l3 => if is_space3 c1 c2 c3 then lstrip_l l3 else l
          | [] => l
          end
      | [] => l
      end
  | [] => []
  end.

(** drops the trailing whitespace characters, on the reversed bytes *)
Fixpoint rstrip_rev (l : list ascii) : list ascii :=
  match l with
  | c3 :: l1 =>
      if is_space c3 then rstrip_rev l1 else
      match l1 with
      | c2 :: l2 =>
          if is_space2 c2 c3 then rstrip_rev l2 else
          match l2 with
          | c1 :: l3 => if is_space3 c1 c2 c3 then rstrip_rev l3 else l
          | [] => l
          end
      | [] => l
      end
  | [] => []
  end.

Definition strip (s : string) : string :=
  string_of_list_ascii
    (rev (rstrip_rev (rev (lstrip_l (list_ascii_of_string s))))).

(** Bytes objects and [b"%PDF"]. *)
Definition bytes := list Byte.byte.
Definition PDF_MAGIC : bytes := [Byte.x25; Byte.x50; Byte.x44; Byte.x46].

(** [s.startswith(p)] / [s in t] on strings *)
Definition startswith (s p : string) : bool := String.prefix p s.

Fixpoint contains (hay needle : string) : bool :=
  String.prefix needle hay ||
  match hay with
  | EmptyString => false
  | String _ h' => contains h' needle
  end.

End Py.
Import Py.

(* ================================================================== *)
(** ** [src/meli_envios2.py] *)

Module MeliEnvios2.

Definition MELI_API_BASE := "https://api.mercadolibre.com".

(** [LABEL_ALLOWED_TYPES] *)
Definition LABEL_ALLOWED_TYPES : list string :=
  ["drop_off"; "xd_drop_off"; "cross_docking"; "self_service"].

(** The reason strings of [_explicacion_estado_label]. *)
Definition MSG_NOT_ME2 := "El envío no es ME2 (mode != 'me2').".
Definition MSG_NO_TYPE := "No se encontró logistic.type.".
Definition MSG_FULFILLMENT :=
  "Fulfillment: la etiqueta de envío la gestiona Mercado Libre.".
Definition MSG_BUFFERING := "Etiqueta no disponible aún (buffering).".

(** [_explicacion_estado_label(sh_json)]: [Ok None] when the shipment can
    be printed, [Ok (Some reason)] otherwise. *)
Definition _explicacion_estado_label (sh_json : json) : res (option string) :=
  logistic0 <- get sh_json "logistic" ;;
  let logistic := py_or logistic0 (JObj []) in
  mode <- get logistic "mode" ;;
  ty <- get logistic "type" ;;
  lty <- get logistic "logistic_type" ;;
  let ltype := py_or ty lty in
  if negb (eq_str mode "me2") then Ok (Some MSG_NOT_ME2) else
  match ltype with
  | JNull => Ok (Some MSG_NO_TYPE)
  | _ =>
  if eq_str ltype "fulfillment" then Ok (Some MSG_FULFILLMENT) else
  allowed <- in_str_set ltype LABEL_ALLOWED_TYPES ;;
  if negb allowed then
    Ok (Some ("Tipo de logística no permitido para etiqueta: " ++ py_str ltype ++ "."))
  else
  status <- get sh_json "status" ;;
  substatus <- get sh_json "substatus" ;;
  if eq_str status "pending" && eq_str substatus "buffered" then
    lead_time0 <- get sh_json "lead_time" ;;
    buffering0 <- get (py_or lead_time0 (JObj [])) "buffering" ;;
    dt <- get (py_or buffering0 (JObj [])) "date" ;;
    if truthy dt then
      Ok (Some ("Etiqueta no disponible aún (buffering). Disponible desde: "
                ++ py_str dt ++ "."))
    else Ok (Some MSG_BUFFERING)
  else
  if negb (eq_str status "ready_to_ship") then
    Ok (Some ("Estado no permitido para imprimir etiqueta: status=" ++ py_str status ++ "."))
  else
  sub_ok <- in_str_set substatus ["ready_to_print"; "printed"] ;;
  if negb sub_ok then
    Ok (Some ("Subestado no permitido para imprimir etiqueta: substatus="
              ++ py_str substatus ++ "."))
  else Ok None
  end.

(** *** HTTP, the OAuth server and the token file *)

(** A [requests.Response]: status code, raw body and its JSON decoding
    ([None] when [r.json()] raises). *)
Record Response := mkResponse {
  status_code : Z;
  content : bytes;
  json_body : option json
}.

(** A request as sent by [requests.request]. *)
Record Request := mkRequest {
  rq_method : string;
  rq_url : string;
  rq_headers : list (string * string);
  rq_params : list (string * string)
}.

(** The attributes of [MeliTokenStore] ([None] is [JNull]). *)
Record TokenStore := mkTokenStore {
  app_id : json;
  client_secret : json;
  access_token : json;
  refresh_token : json
}.

(** The world the module runs in.  [api_answers] and [oauth_answers] are
    the successive answers of the API and of the OAuth endpoint ([None]: the
    call raises a network error); [token_file] is the content of
    [TOKEN_FILE]; [refresh_calls] counts the calls of [refresh()]. *)
Record World := mkWorld {
  store : TokenStore;
  token_file : option TokenStore;
  file_writable : bool;
  api_answers : list (option Response);
  oauth_answers : list (option Response);
  sent : list Request;
  oauth_sent : list (list (string * json));
  refresh_calls : nat
}.

Definition set_store (s : TokenStore) (w : World) : World :=
  mkWorld s (token_file w) (file_writable w) (api_answers w) (oauth_answers w)
          (sent w) (oauth_sent w) (refresh_calls w).
Definition set_token_file (f : option TokenStore) (w : World) : World :=
  mkWorld (store w) f (file_writable w) (api_answers w) (oauth_answers w)
          (sent w) (oauth_sent w) (refresh_calls w).
Definition set_api (a : list (option Response)) (s : list Request) (w : World) : World :=
  mkWorld (store w) (token_file w) (file_writable w) a (oauth_answers w)
          s (oauth_sent w) (refresh_calls w).
Definition set_oauth (a : list (option Response)) (s : list (list (string * json)))
    (w : World) : World :=
  mkWorld (store w) (token_file w) (file_writable w) (api_answers w) a
          (sent w) s (refresh_calls w).
Definition bump_refresh_calls (w : World) : World :=
  mkWorld (store w) (token_file w) (file_writable w) (api_answers w) (oauth_answers w)
          (sent w) (oauth_sent w) (S (refresh_calls w)).

(** *** State and exception monad *)

Definition M (A : Type) := World -> res A * World.

Definition ret {A} (a : A) : M A := fun w => (Ok a, w).
Definition bind {A B} (m : M A) (k : A -> M B) : M B :=
  fun w => match m w with
           | (Ok a, w') => k a w'
           | (Raise e, w') => (Raise e, w')
           end.
Definition lift {A} (r : res A) : M A := fun w => (r, w).
Definition gets {A} (f : World -> A) : M A := fun w => (Ok (f w), w).
Definition modify (f : World -> World) : M unit := fun w => (Ok tt, f w).
(** [try: m except Exception: h] (effects before the raise are kept) *)
Definition try_except {A} (m : M A) (h : M A) : M A :=
  fun w => match m w with
           | (Ok a, w') => (Ok a, w')
           | (Raise _, w') => h w'
           end.

Declare Scope m_scope.
Notation "x <-- m ;;; k" := (bind m (fun x => k))
  (at level 61, m at next level, right associativity) : m_scope.
Notation "m ;;;; k" := (bind m (fun _ => k))
  (at level 61, right associativity) : m_scope.
Open Scope m_scope.

(** [requests.request(method, url, headers=..., params=...)] *)
Definition requests_request (meth url : string) (headers params : list (string * string))
    : M Response :=
  fun w =>
    let w' := set_api (tl (api_answers w))
                      (mkRequest meth url headers params :: sent w) w in
    match api_answers w with
    | Some r :: _ => (Ok r, w')
    | _ => (Raise RequestException, w')
    end.

(** [requests.post(f"{MELI_API_BASE}/oauth/token", data=...)] *)
Definition requests_post_oauth (data : list (string * json)) : M Response :=
  fun w =>
    let w' := set_oauth (tl (oauth_answers w)) (data :: oauth_sent w) w in
    match oauth_answers w with
    | Some r :: _ => (Ok r, w')
    | _ => (Raise RequestException, w')
    end.

(** [r.json()] *)
Definition resp_json (r : Response) : res json :=
  match json_body r with
  | Some j => Ok j
  | None => Raise JSONDecodeError
  end.

(** *** [MeliTokenStore] *)

(** [_save_file()]: writes the four attributes to [TOKEN_FILE]; a failed
    write is swallowed and reported as [False]. *)
Definition _save_file : M bool :=
  fun w =>
    if file_writable w then (Ok true, set_token_file (Some (store w)) w)
    else (Ok false, w).

(** [can_refresh()] *)
Definition can_refresh (s : TokenStore) : bool :=
  truthy (app_id s) && truthy (client_secret s) && truthy (refresh_token s).

(** [refresh()] *)
Definition refresh : M bool :=
  modify bump_refresh_calls ;;;;
  s <-- gets store ;;;
  if negb (can_refresh s) then ret false else
  try_except
    (r <-- requests_post_oauth
             [("grant_type", JStr "refresh_token"); ("client_id", app_id s);
              ("client_secret", client_secret s); ("refresh_token", refresh_token s)] ;;;
     if Z.eqb (status_code r) 200 then
       payload0 <-- lift (resp_json r) ;;;
       let payload := py_or payload0 (JObj []) in
       new_access <-- lift (get payload "access_token") ;;;
       s1 <-- gets store ;;;
       modify (set_store (mkTokenStore (app_id s1) (client_secret s1)
                            (py_or new_access (access_token s1)) (refresh_token s1))) ;;;;
       new_refresh <-- lift (get payload "refresh_token") ;;;
       (if truthy new_refresh then
          s2 <-- gets store ;;;
          modify (set_store (mkTokenStore (app_id s2) (client_secret s2)
                               (access_token s2) new_refresh))
        else ret tt) ;;;;
       _save_file ;;;;
       ret true
     else ret false)
    (ret false).

(** *** HTTP helpers *)

(** [_meli_headers(access_token)] *)
Definition _meli_headers (tok : string) : list (string * string) :=
  [("Authorization", "Bearer " ++ tok)].

(** [dict.update] on string-keyed dicts *)
Fixpoint dict_set (k v : string) (d : list (string * string)) : list (string * string) :=
  match d with
  | [] => [(k, v)]
  | (k', v') :: d' => if String.eqb k k' then (k, v) :: d' else (k', v') :: dict_set k v d'
  end.

Definition dict_update (d upd : list (string * string)) : list (string * string) :=
  fold_left (fun acc kv => dict_set (fst kv) (snd kv) acc) upd d.

(** [_full_url(path_or_url)] *)
Definition _full_url (p : string) : string :=
  if startswith p "http://" || startswith p "https://" then p
  else MELI_API_BASE ++ (if startswith p "/" then p else "/" ++ p).

(** [_meli_request(method, path_or_url, params=..., headers=...)] *)
Definition _meli_request (meth path_or_url : string)
    (params headers : list (string * string)) : M Response :=
  let url := _full_url path_or_url in
  s <-- gets store ;;;
  let base_headers := dict_update (_meli_headers (py_str (py_or (access_token s) (JStr ""))))
                                  headers in
  r <-- requests_request meth url base_headers params ;;;
  if Z.eqb (status_code r) 401 || Z.eqb (status_code r) 403 then
    ok <-- refresh ;;;
    if ok then
      s' <-- gets store ;;;
      let base_headers' :=
        dict_update (_meli_headers (py_str (py_or (access_token s') (JStr "")))) headers in
      requests_request meth url base_headers' params
    else ret r
  else ret r.

(** *** Shipments and labels *)

(** [_meli_get_shipment(shipment_id)] *)
Definition _meli_get_shipment (shipment_id : string) : M (option json) :=
  try_except
    (r <-- _meli_request "GET" ("/shipments/" ++ shipment_id) [] [("x-format-new", "true")] ;;;
     if Z.eqb (status_code r) 200 then
       j <-- lift (resp_json r) ;;;
       ret (Some (py_or j (JObj [])))
     else ret None)
    (ret None).

Fixpoint bytes_eqb (a b : bytes) : bool :=
  match a, b with
  | [], [] => true
  | x :: a', y :: b' => Byte.eqb x y && bytes_eqb a' b'
  | _, _ => false
  end.

(** [_meli_download_label_pdf(shipment_id)] *)
Definition _meli_download_label_pdf (shipment_id : string) : M (option bytes) :=
  sh <-- _meli_get_shipment shipment_id ;;;
  match sh with
  | None => ret None
  | Some sh =>
    if negb (truthy sh) then ret None else
    reason <-- lift (_explicacion_estado_label sh) ;;;
    match reason with
    | Some _ => ret None
    | None =>
      try_except
        (r <-- _meli_request "GET" "/shipment_labels"
                 [("shipment_ids", shipment_id); ("response_type", "pdf")]
                 [("Accept", "application/pdf")] ;;;
         if Z.eqb (status_code r) 200 then
           let c := content r in
           if bytes_eqb (firstn 4 c) PDF_MAGIC then ret (Some c) else ret None
         else ret None)
        (ret None)
    end
  end.

(** *** Shipment lookup by pack / order, and the high-level download *)

(** [x[0]] on a JSON value: first item of a list, first character of a
    string; an empty list, a dict (integer key absent) or a scalar raises
    (the exception class is not distinguished: every caller catches it). *)
Definition py_first (j : json) : res json :=
  match j with
  | JArr (x :: _) => Ok x
  | JStr (String c _) => Ok (JStr (String c EmptyString))
  | _ => Raise TypeError
  end.

(** [list.extend(x)]: the items [x] iterates over (list items, dict keys,
    string characters); a scalar is not iterable and raises. *)
Definition py_iter (j : json) : res (list json) :=
  match j with
  | JArr l => Ok l
  | JObj kvs => Ok (map (fun kv => JStr (fst kv)) kvs)
  | JStr s => Ok (map (fun c => JStr (String c EmptyString)) (list_ascii_of_string s))
  | _ => Raise TypeError
  end.

(** [x.get("id") or x.get("shipment_id")] *)
Definition id_or_shipment_id (x : json) : res json :=
  a <- get x "id" ;;
  if truthy a then Ok a else get x "shipment_id".

(** [url_disponible(url)] of [meli_envios2.py]: HEAD, available when the
    status is below 400; the HEAD is answered from the same answer stream. *)
Definition url_disponible (url : string) : M bool :=
  try_except
    (h <-- requests_request "HEAD" url [] [] ;;;
     ret (Z.ltb (status_code h) 400))
    (ret false).

(** [_meli_get_user_id()] *)
Definition _meli_get_user_id : M json :=
  try_except
    (r <-- _meli_request "GET" "/users/me" [] [] ;;;
     if Z.eqb (status_code r) 200 then
       j <-- lift (resp_json r) ;;;
       lift (get (py_or j (JObj [])) "id")
     else ret JNull)
    (ret JNull).

(** [params["seller"] = seller_id] when [seller_id] is truthy *)
Definition seller_param (seller_id : json) : list (string * string) :=
  if truthy seller_id then [("seller", py_str seller_id)] else [].

(** [_meli_get_shipment_id_from_pack(pack_id, seller_id)] *)
Definition _meli_get_shipment_id_from_pack (pack_id : string) (seller_id : json)
    : M (option string) :=
  from_pack <--
    try_except
      (r <-- _meli_request "GET" ("/packs/" ++ pack_id) [] [] ;;;
       if Z.eqb (status_code r) 200 then
         d <-- lift (resp_json r) ;;;
         sh0 <-- lift (get (py_or d (JObj [])) "shipment") ;;;
         sh <-- lift (get (py_or sh0 (JObj [])) "id") ;;;
         if truthy sh then ret (Some (py_str sh)) else ret None
       else ret None)
      (ret None) ;;;
  match from_pack with
  | Some sid => ret (Some sid)
  | None =>
    try_except
      (r2 <-- _meli_request "GET" "/shipments/search"
                ([("pack", pack_id)] ++ seller_param seller_id)%list
                [("x-format-new", "true")] ;;;
       if Z.eqb (status_code r2) 200 then
         j <-- lift (resp_json r2) ;;;
         res0 <-- lift (get (py_or j (JObj [])) "results") ;;;
         let results := py_or res0 (JArr []) in
         if truthy results then
           x <-- lift (py_first results) ;;;
           sid <-- lift (id_or_shipment_id x) ;;;
           if truthy sid then ret (Some (py_str sid)) else ret None
         else ret None
       else ret None)
      (ret None)
  end.

(** [candidates.extend((r.json() or {}).get("results") or [])] on a 200
    answer, nothing otherwise. *)
Definition search_results (r : Response) : M (list json) :=
  if Z.eqb (status_code r) 200 then
    j <-- lift (resp_json r) ;;;
    x0 <-- lift (get (py_or j (JObj [])) "results") ;;;
    lift (py_iter (py_or x0 (JArr [])))
  else ret [].

(** [_meli_get_shipment_id_from_order(order_id)]; the first block answers
    [Some result] when it returns. *)
Definition _meli_get_shipment_id_from_order (order_id : string) : M (option string) :=
  from_order <--
    try_except
      (r <-- _meli_request "GET" ("/orders/" ++ order_id) [] [] ;;;
       if Z.eqb (status_code r) 200 then
         d <-- lift (resp_json r) ;;;
         let data := py_or d (JObj []) in
         shp <-- lift (get data "shipping") ;;;
         let shipping := py_or shp (JObj []) in
         sid <-- lift (get shipping "id") ;;;
         if truthy sid then ret (Some (Some (py_str sid))) else
         p0 <-- lift (get data "pack_id") ;;;
         pid <-- (if truthy p0 then ret p0 else
                  pk <-- lift (get data "pack") ;;;
                  lift (get (py_or pk (JObj [])) "id")) ;;;
         if truthy pid then
           seller_id <-- _meli_get_user_id ;;;
           res <-- _meli_get_shipment_id_from_pack (py_str pid) seller_id ;;;
           ret (Some res)
         else ret None
       else ret None)
      (ret None) ;;;
  match from_order with
  | Some res => ret res
  | None =>
    try_except
      (seller_id <-- _meli_get_user_id ;;;
       r2 <-- _meli_request "GET" "/shipments/search"
                ([("order", order_id)] ++ seller_param seller_id)%list
                [("x-format-new", "true")] ;;;
       c1 <-- search_results r2 ;;;
       candidates <--
         (match c1 with
          | [] =>
            r3 <-- _meli_request "GET" "/shipments/search" [("order", order_id)]
                     [("x-format-new", "true")] ;;;
            search_results r3
          | _ => ret c1
          end) ;;;
       match candidates with
       | [] => ret None
       | c :: _ =>
         sid <-- lift (id_or_shipment_id c) ;;;
         if truthy sid then ret (Some (py_str sid)) else ret None
       end)
      (ret None)
  end.

(** [_meli_ready_to_ship(shipment_id)] *)
Definition _meli_ready_to_ship (shipment_id : string) : M bool :=
  try_except
    (r <-- _meli_request "POST" ("/shipments/" ++ shipment_id ++ "/process/ready_to_ship") [] [] ;;;
     ret (Z.eqb (status_code r) 200))
    (ret false).

(** [if sid: pdf = _meli_download_label_pdf(sid); if pdf: return pdf] *)
Definition label_for (sid : option string) : M (option bytes) :=
  match sid with
  | Some s =>
    if String.eqb s "" then ret None else
    pdf <-- _meli_download_label_pdf s ;;;
    match pdf with
    | Some ((_ :: _) as b) => ret (Some b)
    | _ => ret None
    end
  | None => ret None
  end.

(** [descargar_etiqueta_por_order_o_pack(order_id, pack_id, archivo_adjunto_url)] *)
Definition descargar_etiqueta_por_order_o_pack (order_id pack_id archivo_adjunto_url : option string)
    : M (option bytes) :=
  from_pack <--
    (match pack_id with
     | Some p =>
       if String.eqb p "" then ret None else
       seller_id <-- _meli_get_user_id ;;;
       sid <-- _meli_get_shipment_id_from_pack p seller_id ;;;
       label_for sid
     | None => ret None
     end) ;;;
  match from_pack with
  | Some pdf => ret (Some pdf)
  | None =>
    from_order <--
      (match order_id with
       | Some o =>
         if String.eqb o "" then ret None else
         sid <-- _meli_get_shipment_id_from_order o ;;;
         label_for sid
       | None => ret None
       end) ;;;
    match from_order with
    | Some pdf => ret (Some pdf)
    | None =>
      match archivo_adjunto_url with
      | Some u =>
        if String.eqb u "" then ret None else
        ok <-- url_disponible u ;;;
        if ok then
          try_except
            (r <-- requests_request "GET" u [] [] ;;;
             if bytes_eqb (firstn 4 (content r)) PDF_MAGIC then ret (Some (content r))
             else ret None)
            (ret None)
        else ret None
      | None => ret None
      end
    end
  end.

End MeliEnvios2.

(* ================================================================== *)
(** ** [src/streamlit_app.py] *)

Module App.
Import MeliEnvios2.

Definition TABLE_NAME := "paquetes_mercadoenvios_chile".

(** A row of [TABLE_NAME], as the column dict the client returns. *)
Definition Row := list (string * json).

(** [row.get(col)] on a row *)
Definition col (r : Row) (c : string) : json :=
  match lookup c r with Some v => v | None => JNull end.

(** Equality of the scalar values a filter [.eq(col, v)] compares. *)
Definition eq_val (a b : json) : bool :=
  match a, b with
  | JNull, JNull => true
  | JBool x, JBool y => Bool.eqb x y
  | JNum x, JNum y => Z.eqb x y
  | JStr x, JStr y => String.eqb x y
  | _, _ => false
  end.

(** Writes sent to the record store. *)
Inductive DbOp :=
| DbInsert (row : Row)
| DbUpdate (c : string) (v : json) (patch : Row).

(** What the operator sees. *)
Inductive UiEvent :=
| Toast (msg icon : string)
| StError (msg : string)
| StSuccess (msg : string)
| StWarning (msg : string)
| DownloadButton (label : string) (data : bytes).

Definition OK_ICON := "✅".
Definition WARN_ICON := "⚠️".

(** The record store, the session and the screen.  [now] is the value of
    [now_chile_iso_naive()] during the call. *)
Record AppWorld := mkAppWorld {
  db : list Row;
  next_id : Z;
  db_log : list DbOp;
  ui : list UiEvent;
  page : string;
  manual_token : json;
  now : string
}.

Definition emit (e : UiEvent) (w : AppWorld) : AppWorld :=
  mkAppWorld (db w) (next_id w) (db_log w) (e :: ui w) (page w) (manual_token w) (now w).

Definition toast (msg icon : string) := emit (Toast msg icon).

(** [supabase.table(TABLE_NAME).select("*").eq(c, v).execute().data] *)
Definition db_select_eq (c : string) (v : json) (w : AppWorld) : list Row :=
  filter (fun r => eq_val (col r c) v) (db w).

Definition apply_patch (patch r : Row) : Row :=
  fold_left (fun acc kv =>
    (fix set (d : Row) : Row :=
       match d with
       | [] => [kv]
       | (k', v') :: d' => if String.eqb (fst kv) k' then kv :: d' else (k', v') :: set d'
       end) acc) patch r.

(** [supabase.table(TABLE_NAME).update(patch).eq(c, v).execute()] *)
Definition db_update_eq (patch : Row) (c : string) (v : json) (w : AppWorld) : AppWorld :=
  mkAppWorld (map (fun r => if eq_val (col r c) v then apply_patch patch r else r) (db w))
             (next_id w) (DbUpdate c v patch :: db_log w) (ui w) (page w)
             (manual_token w) (now w).

(** [supabase.table(TABLE_NAME).insert(row).execute()]; the store adds the
    generated [id]. *)
Definition db_insert (row : Row) (w : AppWorld) : AppWorld :=
  mkAppWorld (db w ++ [("id", JNum (next_id w)) :: row]) (Z.succ (next_id w))
             (DbInsert row :: db_log w) (ui w) (page w) (manual_token w) (now w).

(** [lookup_by_guia(guia)] *)
Definition lookup_by_guia (guia : string) (w : AppWorld) : option Row :=
  match db_select_eq "guia" (JStr guia) w with
  | r :: _ => Some r
  | [] => None
  end.

(** [update_ingreso(guia)] *)
Definition update_ingreso (guia : string) (w : AppWorld) : AppWorld :=
  db_update_eq [("fecha_ingreso", JStr (now w));
                ("estado_escaneo", JStr "INGRESADO CORRECTAMENTE!")] "guia" (JStr guia) w.

(** The patch of [set_impreso_ok(guia, archivo_public)]. *)
Definition impreso_patch (t archivo_public : string) : Row :=
  [("fecha_impresion", JStr t);
   ("estado_escaneo", JStr "IMPRIMIDO CORRECTAMENTE!");
   ("archivo_adjunto", JStr archivo_public)].

(** [set_impreso_ok(guia, archivo_public)] *)
Definition set_impreso_ok (guia archivo_public : string) (w : AppWorld) : AppWorld :=
  db_update_eq (impreso_patch (now w) archivo_public) "guia" (JStr guia) w.

(** The row of [insert_no_coincidente(guia)]. *)
Definition no_coincidente_row (guia t : string) : Row :=
  [("asignacion", JStr ""); ("guia", JStr guia); ("fecha_ingreso", JStr t);
   ("estado_escaneo", JStr "NO COINCIDENTE!"); ("asin", JStr ""); ("cantidad", JNum 0);
   ("estado_orden", JStr ""); ("estado_envio", JStr ""); ("archivo_adjunto", JStr "");
   ("url_imagen", JStr ""); ("comentario", JStr ""); ("descripcion", JStr "");
   ("titulo", JStr ""); ("orden_meli", JStr ""); ("pack_id", JStr "");
   ("fecha_venta", JNull); ("fecha_sincronizacion", JNull); ("orden_amazon", JStr "")].

(** [insert_no_coincidente(guia)] *)
Definition insert_no_coincidente (guia : string) (w : AppWorld) : AppWorld :=
  db_insert (no_coincidente_row guia (now w)) w.

(** *** Mercado Libre calls with the manual session token *)

(** [str(e)] of a caught exception. Python prints the exception's message
    (e.g. ['list' object has no attribute 'get']), which depends on values
    the model of [exc] does not carry; the class name stands in for it. It
    only ever ends up inside a message text, and no property here depends
    on that text. *)
Definition exc_str (e : exc) : string :=
  match e with
  | AttributeError => "AttributeError"
  | TypeError => "TypeError"
  | JSONDecodeError => "JSONDecodeError"
  | RequestException => "RequestException"
  end.

(** [r.text]: the body decoded one byte per character. *)
Definition text_of (c : bytes) : string :=
  string_of_list_ascii (map ascii_of_byte c).

(** [download_label_pdf(token, shipment_id)]; [outcome] is the answer of the
    GET [/shipment_labels] request ([None]: [requests] raises). *)
Definition download_label_pdf (token shipment_id : string) (outcome : option Response)
    : option bytes * option string :=
  match outcome with
  | None => (None, Some ("Error de red: " ++ exc_str RequestException))
  | Some r =>
    if Z.eqb (status_code r) 200 && bytes_eqb (firstn 4 (content r)) PDF_MAGIC then
      (Some (content r), None)
    else
    let j := match json_body r with
             | Some j => j
             | None => JObj [("message", JStr (substring 0 300 (text_of (content r))))]
             end in
    match j with
    | JObj _ =>
      let jm := match get j "message" with Ok v => v | Raise _ => JNull end in
      let je := match get j "error" with Ok v => v | Raise _ => JNull end in
      let err0 := py_or jm (py_or je (JStr (substring 0 300 (py_str j)))) in
      let err :=
        if Z.eqb (status_code r) 400 && contains (py_str j) "not_printable_status" then
          JStr "400 not_printable_status: el envío no está listo para imprimir."
        else if Z.eqb (status_code r) 429 then
          JStr "429 local_rate_limited: intenta en unos segundos."
        else if Z.eqb (status_code r) 404 then
          JStr "404 not_found: revisa order/pack."
        else err0 in
      (None, Some ("Error " ++ str_of_Z (status_code r) ++ ": " ++ py_str err))
    | _ => (None, Some ("Error de red: " ++ exc_str AttributeError))
    end
  end.

(** One lookup of [derive_shipment_id]: [(r.json().get(key) or {}).get("id")]
    on a 200 answer, every failure swallowed. *)
Definition derive_step (key : string) (outcome : option Response) : option string :=
  match outcome with
  | Some r =>
    if Z.eqb (status_code r) 200 then
      match resp_json r with
      | Ok j =>
        match get j key with
        | Ok sh =>
          match get (py_or sh (JObj [])) "id" with
          | Ok sid => if truthy sid then Some (py_str sid) else None
          | Raise _ => None
          end
        | Raise _ => None
        end
      | Raise _ => None
      end
    else None
  | None => None
  end.

(** [derive_shipment_id(token, order_id, pack_id)]; [order_resp] and
    [pack_resp] answer GET [/orders/{order_id}] and GET [/packs/{pack_id}]. *)
Definition derive_shipment_id (token : string) (order_id pack_id : option string)
    (order_resp pack_resp : option Response) : option string :=
  let from_order := match order_id with
                    | Some o => if String.eqb o "" then None else derive_step "shipping" order_resp
                    | None => None
                    end in
  match from_order with
  | Some sid => Some sid
  | None =>
    match pack_id with
    | Some p => if String.eqb p "" then None else derive_step "shipment" pack_resp
    | None => None
    end
  end.

(** Answers of the outside world to one scan: HEAD on the stored URL,
    GET of the stored PDF, the order / pack / label requests, the storage
    upload (whether it raises) and the public URL it yields. *)
Record ScanEnv := mkScanEnv {
  head_status : option Z;
  storage_get : option bytes;
  order_resp : option Response;
  pack_resp : option Response;
  label_resp : option Response;
  upload_ok : bool;
  public_url : option string
}.

(** [url_disponible(url)] of [streamlit_app.py] *)
Definition url_disponible (env : ScanEnv) (url : string) : bool :=
  if String.eqb url "" then false else
  match head_status env with
  | Some s => Z.eqb s 200
  | None => false
  end.

(** [upload_pdf_to_storage(asignacion, data)] *)
Definition upload_pdf_to_storage (env : ScanEnv) (asignacion : string) (data : bytes)
    (w : AppWorld) : option string * AppWorld :=
  if String.eqb asignacion "" then (None, w) else
  if upload_ok env then (public_url env, w)
  else (None, emit (StError ("❌ Error subiendo PDF: " ++ exc_str RequestException)) w).

(** [(match.get(c) or "").strip()] on a string column *)
Definition col_str (m : Row) (c : string) : string :=
  strip (py_str (py_or (col m c) (JStr ""))).

(** Steps 2 and 3 of the print branch of [process_scan]: fetch a new
    label with the session token, upload it, mark the record printed. *)
Definition print_fetch (env : ScanEnv) (guia asignacion : string) (m : Row)
    (w : AppWorld) : AppWorld :=
  let token := strip (py_str (py_or (manual_token w) (JStr ""))) in
  if String.eqb token "" then
    toast "Falta token para imprimir." WARN_ICON
      (emit (StError "No hay token guardado (PRUEBAS). Guarda uno para poder imprimir.") w)
  else
  let order_id := let o := col_str m "orden_meli" in if String.eqb o "" then None else Some o in
  let pack_id := let p := col_str m "pack_id" in if String.eqb p "" then None else Some p in
  match derive_shipment_id token order_id pack_id (order_resp env) (pack_resp env) with
  | None =>
    toast "No se pudo derivar shipment_id." WARN_ICON
      (emit (StError "No se pudo derivar shipment_id desde Order/Pack.") w)
  | Some shipment_id =>
    match download_label_pdf token shipment_id (label_resp env) with
    | (None, err) =>
      toast "No se imprimió. Revisa el estado del envío." WARN_ICON
        (emit (StError (match err with
                        | Some e => if String.eqb e "" then "No se pudo descargar la etiqueta." else e
                        | None => "No se pudo descargar la etiqueta."
                        end)) w)
    | (Some pdf, _) =>
      match upload_pdf_to_storage env asignacion pdf w with
      | (None, w1) =>
        toast "No se pudo subir el PDF." WARN_ICON
          (emit (StError "No se pudo subir la etiqueta a Storage.") w1)
      | (Some url_publica, w1) =>
        if String.eqb url_publica "" then
          toast "No se pudo subir el PDF." WARN_ICON
            (emit (StError "No se pudo subir la etiqueta a Storage.") w1)
        else
        let w2 := set_impreso_ok guia url_publica w1 in
        let w3 := emit (StSuccess ("Etiqueta lista (shipment_id=" ++ shipment_id ++ ").")) w2 in
        let w4 := emit (DownloadButton "📄 Descargar etiqueta (PDF)" pdf) w3 in
        toast "Impresión registrada correctamente." OK_ICON w4
      end
    end
  end.

(** The print branch of [process_scan] for a found record [m]. *)
Definition process_print (env : ScanEnv) (guia : string) (m : Row) (w : AppWorld) : AppWorld :=
  let asig0 := strip (py_str (py_or (col m "asignacion") (JStr "etiqueta"))) in
  let asignacion := if String.eqb asig0 "" then "etiqueta" else asig0 in
  let archivo_public := py_str (py_or (col m "archivo_adjunto") (JStr "")) in
  if negb (String.eqb archivo_public "") && url_disponible env archivo_public then
    match storage_get env with
    | Some pdf_bytes =>
      if bytes_eqb (firstn 4 pdf_bytes) PDF_MAGIC then
        let w1 := emit (StSuccess ("🖨️ Etiqueta " ++ asignacion ++ " lista para descargar.")) w in
        let w2 := emit (DownloadButton ("📄 Descargar " ++ asignacion ++ ".pdf") pdf_bytes) w1 in
        toast "Etiqueta disponible desde almacenamiento." OK_ICON w2
      else
        print_fetch env guia asignacion m
          (emit (StWarning "⚠️ El archivo no parece un PDF válido. Intentaré descargar una nueva etiqueta…") w)
    | None =>
      print_fetch env guia asignacion m
        (emit (StWarning "⚠️ No se pudo descargar el PDF desde Storage. Intentaré obtener una nueva etiqueta…") w)
    end
  else print_fetch env guia asignacion m w.

(** [process_scan(guia)] *)
Definition process_scan (env : ScanEnv) (guia0 : string) (w : AppWorld) : AppWorld :=
  let guia := strip guia0 in
  if String.eqb guia "" then toast "Ingresa una guía válida." WARN_ICON w else
  match lookup_by_guia guia w with
  | Some ((_ :: _) as m) =>
    if String.eqb (page w) "ingresar" then
      toast ("Guía " ++ guia ++ " ingresada correctamente.") OK_ICON (update_ingreso guia w)
    else if String.eqb (page w) "imprimir" then process_print env guia m w
    else w
  | _ =>
    toast ("Guía " ++ guia ++ " no encontrada. Se registró como NO COINCIDENTE.") WARN_ICON
      (insert_no_coincidente guia w)
  end.

(** *** Upsert of the fetched orders in [sync_meli_orders] *)

(** [str.upper()] on ASCII letters *)
Definition upper (s : string) : string :=
  string_of_list_ascii
    (map (fun c => let n := nat_of_ascii c in
                   if Nat.leb 97 n && Nat.leb n 122 then ascii_of_nat (n - 32) else c)
         (list_ascii_of_string s)).

(** The tuple [_map_order(order)] returns. *)
Record Basic := mkBasic {
  b_oid : string;
  b_status : json;
  b_created : json;
  b_qty : Z;
  b_asin : json;
  b_title : json;
  b_item_id : json;
  b_pack_id : string;
  b_shipment_id : json
}.

(** [d.get(k, "")] on the [notes] / [pics] / [ships] dicts *)
Fixpoint sget (k : string) (d : list (string * string)) : option string :=
  match d with
  | [] => None
  | (k', v) :: d' => if String.eqb k k' then Some v else sget k d'
  end.

Definition sget_or (k : string) (d : list (string * string)) : string :=
  match sget k d with Some v => v | None => "" end.

(** [row_sync] of one order *)
Definition row_sync (now_sync_iso : string) (notes pics ships : list (string * string))
    (b : Basic) : Row :=
  let oid := b_oid b in
  let pack_final := if String.eqb (b_pack_id b) "" then oid else b_pack_id b in
  [("asignacion", JStr (upper (sget_or oid notes)));
   ("guia", JStr "");
   ("estado_orden", b_status b);
   ("estado_envio", JStr (sget_or oid ships));
   ("asin", b_asin b);
   ("cantidad", JNum (b_qty b));
   ("titulo", b_title b);
   ("orden_meli", JStr oid);
   ("pack_id", JStr pack_final);
   ("url_imagen", JStr (sget_or oid pics));
   ("archivo_adjunto", JStr "");
   ("fecha_venta", b_created b);
   ("fecha_sincronizacion", JStr now_sync_iso)].

(** The columns an existing record gets from [row_sync]. *)
Definition sync_patch (row : Row) : Row :=
  map (fun c => (c, col row c))
      ["asignacion"; "estado_orden"; "estado_envio"; "asin"; "cantidad"; "titulo";
       "pack_id"; "url_imagen"; "fecha_venta"; "fecha_sincronizacion"].

(** The body of the loop over [basics]: look up by [orden_meli], update the
    first match by [id], insert otherwise. *)
Definition sync_upsert (now_sync_iso : string) (notes pics ships : list (string * string))
    (b : Basic) (w : AppWorld) : AppWorld :=
  let row := row_sync now_sync_iso notes pics ships b in
  match db_select_eq "orden_meli" (JStr (b_oid b)) w with
  | ex :: _ => db_update_eq (sync_patch row) "id" (col ex "id") w
  | [] => db_insert row w
  end.

(** The loop over one page of [basics]. *)
Definition sync_upsert_all (notes pics ships : list (string * string))
    (basics : list Basic) (w : AppWorld) : AppWorld :=
  fold_left (fun w b => sync_upsert (now w) notes pics ships b w) basics w.

(** *** Order notes *)

(** [pick_from_result(d)] of [_extract_notes_list] *)
Definition pick_from_result (d : list (string * json)) : list string :=
  let pick_keys :=
    flat_map (fun k => match lookup k d with
                       | Some v => if truthy v then [py_str v] else []
                       | None => []
                       end)
             ["text"; "plain_text"; "description"; "message"] in
  match lookup "note" d with
  | Some v => if truthy v then [py_str v] else pick_keys
  | None => pick_keys
  end.

(** [for res in results: if isinstance(res, dict): pick_from_result(res)] *)
Definition pick_results (results : list json) : list string :=
  flat_map (fun r => match r with JObj d => pick_from_result d | _ => [] end) results.

(** A dict: its [results] list when it has one, the dict itself otherwise. *)
Definition pick_dict (d : list (string * json)) : list string :=
  match lookup "results" d with
  | Some (JArr results) => pick_results results
  | _ => pick_from_result d
  end.

(** [_extract_notes_list(payload)] *)
Definition _extract_notes_list (payload : json) : list string :=
  match payload with
  | JArr entries =>
    flat_map (fun entry => match entry with
                           | JObj d => pick_dict d
                           | _ => if truthy entry then [py_str entry] else []
                           end) entries
  | JObj d => pick_dict d
  | _ => []
  end.

(** [x[-1]] on a JSON value: last item of a list, last character of a
    string; anything else raises (caught by the caller). *)
Definition py_last (j : json) : res json :=
  match j with
  | JArr ((_ :: _) as l) => Ok (last l JNull)
  | JStr s =>
    match rev (list_ascii_of_string s) with
    | c :: _ => Ok (JStr (String c EmptyString))
    | [] => Raise TypeError
    end
  | _ => Raise TypeError
  end.

(** [results = (entry or {}).get("results") or []; if results:
    last = results[-1]; note_id = last.get("id") or last.get("note_id")] *)
Definition results_note_id (entry note_id : json) : res json :=
  r0 <- get (py_or entry (JObj [])) "results" ;;
  let results := py_or r0 (JArr []) in
  if truthy results then
    last <- py_last results ;;
    a <- get last "id" ;;
    if truthy a then Ok a else get last "note_id"
  else Ok note_id.

(** The loop over the entries of a list answer; an exception leaves the
    loop with the value [note_id] has at that point. *)
Fixpoint notes_scan (entries : list json) (note_id : json) : json :=
  match entries with
  | [] => note_id
  | e :: es =>
    match results_note_id e note_id with
    | Ok nid => notes_scan es nid
    | Raise _ => note_id
    end
  end.

(** [note_id] after the GET [/orders/{order_id}/notes] block. *)
Definition found_note_id (get_resp : option Response) : json :=
  match get_resp with
  | Some r =>
    if Z.eqb (status_code r) 200 then
      match resp_json r with
      | Ok (JArr entries) => notes_scan entries JNull
      | Ok (JObj d) =>
        match results_note_id (JObj d) JNull with Ok nid => nid | Raise _ => JNull end
      | _ => JNull
      end
    else JNull
  | None => JNull
  end.

(** The write request [upsert_order_note] sends. *)
Record NoteRequest := mkNoteRequest {
  nr_method : string;
  nr_url : string;
  nr_headers : list (string * string);
  nr_json : json
}.

Definition ORDERS_URL := "https://api.mercadolibre.com/orders/".

(** [upsert_order_note(order_id, note_text, token)]; [get_resp] answers the
    GET of the notes, [write_resp] the PUT or POST ([None]: [requests]
    raises).  Returns the write request and the function's result. *)
Definition upsert_order_note (order_id note_text token : string)
    (get_resp write_resp : option Response) : NoteRequest * (bool * string) :=
  let headers := dict_update (_meli_headers token) [("Content-Type", "application/json")] in
  let note_id := found_note_id get_resp in
  let payload := JObj [("note", JStr note_text)] in
  let answer (verb ok_msg : string) :=
    match write_resp with
    | None => (false, "Error de red: " ++ exc_str RequestException)
    | Some r =>
      if Z.eqb (status_code r) 200 || Z.eqb (status_code r) 201 then (true, ok_msg)
      else (false, verb ++ " " ++ str_of_Z (status_code r) ++ ": "
                   ++ substring 0 200 (text_of (content r)))
    end in
  if truthy note_id then
    (mkNoteRequest "PUT" (ORDERS_URL ++ order_id ++ "/notes/" ++ py_str note_id) headers payload,
     answer "PUT" "Nota actualizada correctamente.")
  else
    (mkNoteRequest "POST" (ORDERS_URL ++ order_id ++ "/notes") headers payload,
     answer "POST" "Nota creada correctamente.").

End App.

(* ================================================================== *)
(** * Properties *)

Import MeliEnvios2.

(** ** Label eligibility ([_explicacion_estado_label]) *)

Lemma get_obj (l : list (string * json)) (k : string) :
  get (JObj l) k = Ok (match lookup k l with Some v => v | None => JNull end).
Proof. reflexivity. Qed.

(** The value bound to [logistic] in [_explicacion_estado_label]. *)
Lemma py_or_empty_obj (l : list (string * json)) :
  py_or (JObj l) (JObj []) = JObj l.
Proof. destruct l; reflexivity. Qed.

(** A shipment whose [logistic] field is missing or falsy is treated as
    having an empty [logistic] dict. *)
Lemma py_or_falsy (v : json) : truthy v = false -> py_or v (JObj []) = JObj [].
Proof. unfold py_or. now intros ->. Qed.

(** C2: when [logistic.mode] is not ["me2"] (the [logistic] dict is absent,
    falsy, or a dict whose [mode] is missing or another value), the check
    answers the "not ME2" reason, whatever the status, substatus and
    logistic type. *)
Theorem explicacion_not_me2 (fields : list (string * json)) :
  (lookup "logistic" fields = None \/
   (exists v, lookup "logistic" fields = Some v /\ truthy v = false) \/
   (exists lf, lookup "logistic" fields = Some (JObj lf) /\
               forall m, lookup "mode" lf = Some m -> m <> JStr "me2")) ->
  _explicacion_estado_label (JObj fields) = Ok (Some MSG_NOT_ME2).
Proof.
  intros [H | [[v [H Hv]] | [lf [H Hm]]]];
    unfold _explicacion_estado_label; rewrite get_obj, H; cbn [res_bind].
  - reflexivity.
  - rewrite (py_or_falsy v Hv). reflexivity.
  - rewrite py_or_empty_obj, !get_obj. cbn [res_bind].
    destruct (lookup "mode" lf) as [m|] eqn:E; [|reflexivity].
    specialize (Hm m eq_refl).
    destruct m; try reflexivity.
    simpl. destruct (String.eqb s "me2") eqn:Es; [|reflexivity].
    apply String.eqb_eq in Es. subst. contradiction.
Qed.

Definition shipment_not_me2 : json :=
  JObj [("logistic", JObj [("mode", JStr "me1"); ("type", JStr "fulfillment")]);
        ("status", JStr "ready_to_ship"); ("substatus", JStr "ready_to_print")].

Lemma explicacion_not_me2_witness :
  _explicacion_estado_label shipment_not_me2 = Ok (Some MSG_NOT_ME2).
Proof.
  apply explicacion_not_me2. right. right.
  exists [("mode", JStr "me1"); ("type", JStr "fulfillment")]. split; [reflexivity|].
  intros m Hm. simpl in Hm. injection Hm as <-. discriminate.
Defined.

(** C3: a ME2 [drop_off] shipment in [ready_to_ship] / [ready_to_print]
    is eligible: the check answers [None]. *)
Theorem explicacion_drop_off_ready (fields lf : list (string * json)) :
  lookup "logistic" fields = Some (JObj lf) ->
  lookup "mode" lf = Some (JStr "me2") ->
  lookup "type" lf = Some (JStr "drop_off") ->
  lookup "status" fields = Some (JStr "ready_to_ship") ->
  lookup "substatus" fields = Some (JStr "ready_to_print") ->
  _explicacion_estado_label (JObj fields) = Ok None.
Proof.
  intros Hl Hm Ht Hs Hss.
  unfold _explicacion_estado_label. rewrite get_obj, Hl. cbn [res_bind].
  rewrite py_or_empty_obj, !get_obj, Hm, Ht. cbn [res_bind].
  simpl. rewrite Hs, Hss. reflexivity.
Qed.

Definition shipment_ready : json :=
  JObj [("id", JNum 4001);
        ("logistic", JObj [("mode", JStr "me2"); ("type", JStr "drop_off")]);
        ("status", JStr "ready_to_ship"); ("substatus", JStr "ready_to_print")].

Lemma explicacion_drop_off_ready_witness :
  _explicacion_estado_label shipment_ready = Ok None.
Proof.
  apply (explicacion_drop_off_ready _ [("mode", JStr "me2"); ("type", JStr "drop_off")]);
    reflexivity.
Defined.

Lemma prefix_app (d s : string) : String.prefix d (d ++ s) = true.
Proof.
  induction d as [|c d IH]; simpl; [destruct s; reflexivity|].
  destruct (Ascii.ascii_dec c c) as [_|n]; [exact IH|contradiction].
Qed.

Lemma contains_unfold (h n : string) :
  contains h n = String.prefix n h ||
                 match h with EmptyString => false | String _ h' => contains h' n end.
Proof. destruct h; reflexivity. Qed.

Lemma contains_app (a d s : string) : contains (a ++ d ++ s) d = true.
Proof.
  induction a as [|c a IH]; rewrite contains_unfold.
  - simpl. rewrite prefix_app. reflexivity.
  - change (String c a ++ d ++ s) with (String c (a ++ d ++ s)). simpl.
    rewrite IH. apply orb_true_r.
Qed.

Definition MSG_BUFFERING_FROM := "Etiqueta no disponible aún (buffering). Disponible desde: ".

(** No buffering date in a shipment: [lead_time] is absent or falsy or a
    dict whose [buffering] is absent or falsy or a dict whose [date] is
    absent or falsy. *)
Definition no_buffering_date (fields : list (string * json)) : Prop :=
  forall lt, lookup "lead_time" fields = Some lt -> truthy lt = true ->
  exists l, lt = JObj l /\
  forall b, lookup "buffering" l = Some b -> truthy b = true ->
  exists bl, b = JObj bl /\
  forall d, lookup "date" bl = Some d -> truthy d = false.

(** With no buffering date, the buffering branch of the check ends in its
    [else] part. *)
Lemma no_buffering_date_generic (fields : list (string * json))
    (f : json -> res (option string)) (r : res (option string)) :
  no_buffering_date fields ->
  (buffering0 <- get (py_or (match lookup "lead_time" fields with Some v => v | None => JNull end)
                            (JObj [])) "buffering" ;;
   dt <- get (py_or buffering0 (JObj [])) "date" ;;
   if truthy dt then f dt else r) = r.
Proof.
  intros Hno. destruct (lookup "lead_time" fields) as [lt|] eqn:Hlt; [|reflexivity].
  unfold py_or at 1. destruct (truthy lt) eqn:Tl; [|reflexivity].
  destruct (Hno lt Hlt Tl) as [l [-> Hb]]. rewrite get_obj. cbn [res_bind].
  destruct (lookup "buffering" l) as [b|] eqn:Eb; [|reflexivity].
  unfold py_or. destruct (truthy b) eqn:Tb; [|reflexivity].
  destruct (Hb b eq_refl Tb) as [bl [-> Hd]]. rewrite get_obj. cbn [res_bind].
  destruct (lookup "date" bl) as [d|] eqn:Ed; [rewrite (Hd d eq_refl)|]; reflexivity.
Qed.

Ltac explic_prefix Hl Hm Ht Hin Hs Hss :=
  unfold _explicacion_estado_label; rewrite get_obj, Hl; cbn [res_bind];
  rewrite py_or_empty_obj, !get_obj, Hm, Ht;
  simpl in Hin; destruct Hin as [<-|[<-|[<-|[<-|[]]]]];
  simpl; rewrite Hs, Hss; simpl.

(** C4: as rule 5 of the eligibility table (a ME2 shipment with an
    allowed logistic type), a [pending] / [buffered] shipment is ineligible;
    the reason names [lead_time.buffering.date] when it is a non-empty
    string, and is the generic buffering message when there is no date
    ([lead_time], [buffering] or [date] absent, null or otherwise falsy). *)
Theorem explicacion_buffering (fields lf : list (string * json)) (t : string) :
  lookup "logistic" fields = Some (JObj lf) ->
  lookup "mode" lf = Some (JStr "me2") ->
  lookup "type" lf = Some (JStr t) ->
  In t LABEL_ALLOWED_TYPES ->
  lookup "status" fields = Some (JStr "pending") ->
  lookup "substatus" fields = Some (JStr "buffered") ->
  (forall lt b d,
     lookup "lead_time" fields = Some (JObj lt) ->
     lookup "buffering" lt = Some (JObj b) ->
     lookup "date" b = Some (JStr d) -> d <> "" ->
     _explicacion_estado_label (JObj fields) = Ok (Some (MSG_BUFFERING_FROM ++ d ++ "."))
     /\ contains (MSG_BUFFERING_FROM ++ d ++ ".") d = true) /\
  (no_buffering_date fields ->
   _explicacion_estado_label (JObj fields) = Ok (Some MSG_BUFFERING)).
Proof.
  intros Hl Hm Ht Hin Hs Hss. split.
  - intros lt b d Hlt Hb Hd Hne. split; [|apply contains_app].
    explic_prefix Hl Hm Ht Hin Hs Hss;
      rewrite Hlt, py_or_empty_obj; simpl; rewrite Hb, py_or_empty_obj; simpl;
      rewrite Hd; simpl;
      (destruct (String.eqb d "") eqn:E;
       [apply String.eqb_eq in E; contradiction | reflexivity]).
  - intros Hno.
    explic_prefix Hl Hm Ht Hin Hs Hss;
      exact (no_buffering_date_generic fields
               (fun dt => Ok (Some (MSG_BUFFERING_FROM ++ py_str dt ++ "."))) _ Hno).
Qed.

Definition buffered_logistic : list (string * json) :=
  [("mode", JStr "me2"); ("type", JStr "cross_docking")].

Definition buffered_fields : list (string * json) :=
  [("logistic", JObj buffered_logistic);
   ("status", JStr "pending"); ("substatus", JStr "buffered");
   ("lead_time", JObj [("buffering", JObj [("date", JStr "2025-01-01")])])].

Definition buffered_nodate_fields : list (string * json) :=
  [("logistic", JObj buffered_logistic);
   ("status", JStr "pending"); ("substatus", JStr "buffered")].

Lemma explicacion_buffering_witness :
  _explicacion_estado_label (JObj buffered_fields)
    = Ok (Some (MSG_BUFFERING_FROM ++ "2025-01-01" ++ ".")) /\
  _explicacion_estado_label (JObj buffered_nodate_fields) = Ok (Some MSG_BUFFERING).
Proof.
  split.
  - refine (proj1 (proj1 (explicacion_buffering
      buffered_fields buffered_logistic "cross_docking"
      eq_refl eq_refl eq_refl _ eq_refl eq_refl)
      [("buffering", JObj [("date", JStr "2025-01-01")])] [("date", JStr "2025-01-01")]
      "2025-01-01" eq_refl eq_refl eq_refl _)).
    + simpl. tauto.
    + discriminate.
  - refine (proj2 (explicacion_buffering
      buffered_nodate_fields buffered_logistic "cross_docking"
      eq_refl eq_refl eq_refl _ eq_refl eq_refl) _).
    + simpl. tauto.
    + intros lt Hlt. discriminate.
Defined.

(** ** Token refresh ([MeliTokenStore.refresh]) *)

Ltac split_ifs := repeat (match goal with |- context [if ?b then _ else _] => destruct b end; cbn).

(** C10: [refresh()] never raises; when it answers [False] (missing
    credentials, non-200 answer, network or JSON failure) the stored tokens
    and the token file are unchanged; it answers [True] only after a 200
    answer whose JSON decodes to a dict or a falsy value. *)
Theorem refresh_failure_keeps_state (w : World) :
  let (r, w') := refresh w in
  (r = Ok true \/ r = Ok false) /\
  (r = Ok false -> store w' = store w /\ token_file w' = token_file w) /\
  (r = Ok true ->
     can_refresh (store w) = true /\
     exists resp rest j, oauth_answers w = Some resp :: rest /\ status_code resp = 200%Z /\
       json_body resp = Some j /\ (truthy j = false \/ exists l, j = JObj l)).
Proof.
  destruct w as [s f fw api oa snt os rc].
  unfold refresh, bind, modify, gets, ret, lift, try_except, requests_post_oauth, _save_file.
  cbn -[can_refresh].
  destruct (can_refresh s) eqn:Hc; cbn.
  2:{ repeat split; auto; discriminate. }
  destruct oa as [|[r|] oa']; cbn.
  1,3: repeat split; auto; discriminate.
  destruct (Z.eqb (status_code r) 200) eqn:Hs; cbn.
  2:{ repeat split; auto; discriminate. }
  unfold resp_json. destruct (json_body r) as [j|] eqn:Hj; cbn.
  2:{ repeat split; auto; discriminate. }
  unfold py_or. destruct (truthy j) eqn:Ht.
  - destruct j; cbn; try (repeat split; auto; discriminate).
    repeat (match goal with |- context [if ?b then _ else _] => destruct b end; cbn);
      (split; [auto|split; [discriminate|intros _; split; [reflexivity|]]]);
      (do 3 eexists; split; [reflexivity|]; split; [apply Z.eqb_eq; exact Hs|];
       split; [eassumption|]; eauto).
  - cbn. destruct fw; cbn;
      (split; [auto|split; [discriminate|intros _; split; [reflexivity|]]]);
      (do 3 eexists; split; [reflexivity|]; split; [apply Z.eqb_eq; exact Hs|];
       split; [eassumption|]; eauto).
Qed.

(** [refresh()] touches neither the API answers nor the sent requests, and
    is counted once. *)
Lemma refresh_frame (w : World) :
  exists b, fst (refresh w) = Ok b /\
    api_answers (snd (refresh w)) = api_answers w /\
    sent (snd (refresh w)) = sent w /\
    refresh_calls (snd (refresh w)) = S (refresh_calls w).
Proof.
  destruct w as [s f fw api oa snt os rc].
  unfold refresh, bind, modify, gets, ret, lift, try_except, requests_post_oauth, _save_file.
  cbn -[can_refresh].
  destruct (can_refresh s); cbn; [|eauto].
  destruct oa as [|[r|] oa']; cbn; [eauto| |eauto].
  destruct (Z.eqb (status_code r) 200); cbn; [|eauto].
  unfold resp_json. destruct (json_body r) as [j|]; cbn; [|eauto].
  unfold py_or. destruct (truthy j).
  - destruct j; cbn; eauto; split_ifs; eauto.
  - cbn. split_ifs; eauto.
Qed.

(** A token store with credentials. *)
Definition store0 : TokenStore := mkTokenStore (JStr "app") (JStr "secret") (JStr "A0") (JStr "R0").

(** ** Authenticated requests ([_meli_request]) *)

(** C1: when the first answer to a call is 401, [refresh()] is called
    exactly once and at most one retry is sent: either the retry went out
    (the refresh succeeded) and its answer, e.g. a 200, is returned, or no
    retry went out and the 401 is returned; in both cases no answer beyond
    the second is consumed.  With answers [401, 401] the result is a 401. *)
Theorem meli_request_retry_once (w : World) (meth p : string)
    (params hdrs : list (string * string)) (r1 r2 : Response)
    (rest : list (option Response)) :
  api_answers w = Some r1 :: Some r2 :: rest ->
  status_code r1 = 401%Z ->
  let (res, w') := _meli_request meth p params hdrs w in
  refresh_calls w' = S (refresh_calls w) /\
  ((res = Ok r2 /\ api_answers w' = rest /\ length (sent w') = S (S (length (sent w)))) \/
   (res = Ok r1 /\ api_answers w' = Some r2 :: rest /\ length (sent w') = S (length (sent w)))).
Proof.
  intros Ha Hs.
  unfold _meli_request, bind, gets, ret.
  unfold requests_request at 1. rewrite Ha. cbn [fst snd tl].
  rewrite Hs. cbn -[refresh requests_request].
  set (w1 := set_api (Some r2 :: rest) _ w).
  destruct (refresh_frame w1) as [b [Hb [Hapi [Hsent Hrc]]]].
  destruct (refresh w1) as [rr w2] eqn:E. cbn [fst snd] in *. subst rr.
  destruct b.
  - unfold requests_request. rewrite Hapi. cbn.
    rewrite Hrc, Hsent. cbn. split; [reflexivity|]. left. auto.
  - cbn. rewrite Hrc, Hapi, Hsent. cbn. split; [reflexivity|]. right. auto.
Qed.

Definition world_401_401 : World :=
  mkWorld store0 None true
    [Some (mkResponse 401 [] None); Some (mkResponse 401 [] None)]
    [Some (mkResponse 200 [] (Some (JObj [("access_token", JStr "A1")])))] [] [] 0.

Lemma meli_request_retry_once_witness :
  let (res, w') := _meli_request "GET" "/users/me" [] [] world_401_401 in
  refresh_calls w' = S (refresh_calls world_401_401) /\
  ((res = Ok (mkResponse 401 [] None) /\ api_answers w' = [] /\
    length (sent w') = S (S (length (sent world_401_401)))) \/
   (res = Ok (mkResponse 401 [] None) /\ api_answers w' = [Some (mkResponse 401 [] None)] /\
    length (sent w') = S (length (sent world_401_401)))).
Proof.
  exact (meli_request_retry_once world_401_401 "GET" "/users/me" [] []
           (mkResponse 401 [] None) (mkResponse 401 [] None) [] eq_refl eq_refl).
Defined.

Definition world_refresh_empty_rt : World :=
  mkWorld store0 None true []
    [Some (mkResponse 200 []
             (Some (JObj [("access_token", JStr "A1"); ("refresh_token", JStr "")])))]
    [] [] 0.

(** C6 (counterexample): a 200 answer carrying both [access_token] and an
    empty [refresh_token] leaves the stored refresh token at its old value
    instead of the answer's. *)
Lemma refresh_empty_refresh_token_cex :
  fst (refresh world_refresh_empty_rt) = Ok true /\
  refresh_token (store (snd (refresh world_refresh_empty_rt))) = JStr "R0" /\
  refresh_token (store (snd (refresh world_refresh_empty_rt))) <> JStr "".
Proof. vm_compute. split; [reflexivity|split; [reflexivity|discriminate]]. Qed.

(** C6 (amended): on a 200 answer whose JSON is a dict, [refresh()]
    answers [True]; each token is replaced by the answer's value when that
    value is truthy and kept otherwise (in particular the refresh token is
    kept when the answer has none); the credentials are kept; and the
    token state is written to the token file when the file is writable. *)
Theorem refresh_ok_response (w : World) (c : bytes) (fields : list (string * json))
    (rest : list (option Response)) :
  can_refresh (store w) = true ->
  oauth_answers w = Some (mkResponse 200 c (Some (JObj fields))) :: rest ->
  let (r, w') := refresh w in
  r = Ok true /\
  app_id (store w') = app_id (store w) /\
  client_secret (store w') = client_secret (store w) /\
  (forall v, lookup "access_token" fields = Some v -> truthy v = true ->
     access_token (store w') = v) /\
  ((forall v, lookup "access_token" fields = Some v -> truthy v = false) ->
     access_token (store w') = access_token (store w)) /\
  (forall v, lookup "refresh_token" fields = Some v -> truthy v = true ->
     refresh_token (store w') = v) /\
  ((forall v, lookup "refresh_token" fields = Some v -> truthy v = false) ->
     refresh_token (store w') = refresh_token (store w)) /\
  token_file w' = (if file_writable w then Some (store w') else token_file w).
Proof.
  destruct w as [s f fw api oa snt os rc]. cbn [store oauth_answers file_writable token_file].
  intros Hc Ho. subst oa.
  unfold refresh, bind, modify, gets, ret, lift, try_except, requests_post_oauth, _save_file.
  cbn -[can_refresh truthy py_or]. rewrite Hc. cbn -[truthy py_or].
  rewrite py_or_empty_obj. cbn -[truthy py_or].
  destruct (lookup "access_token" fields) as [a|] eqn:Ea;
  destruct (lookup "refresh_token" fields) as [t|] eqn:Et;
  cbn -[truthy py_or];
  [destruct (truthy t) eqn:Htt | | destruct (truthy t) eqn:Htt | ];
  cbn -[truthy py_or]; destruct fw; cbn -[truthy py_or];
  unfold py_or; try (destruct (truthy a) eqn:Hta);
  cbn [store set_token_file set_store set_oauth bump_refresh_calls access_token
       refresh_token app_id client_secret token_file];
  repeat split; intros;
  cbn [store set_token_file set_store set_oauth bump_refresh_calls access_token
       refresh_token app_id client_secret token_file]; try congruence;
  repeat match goal with
         | H : Some _ = Some _ |- _ => injection H as <-
         | H : forall v, Some ?x = Some v -> _ |- _ => specialize (H x eq_refl)
         | H : None = Some _ |- _ => discriminate H
         end; congruence.
Qed.

Lemma refresh_ok_response_witness :
  let w := mkWorld store0 None true []
             [Some (mkResponse 200 []
                      (Some (JObj [("access_token", JStr "A1"); ("refresh_token", JStr "R1")])))]
             [] [] 0 in
  can_refresh (store w) = true /\
  (let (r, w') := refresh w in
   r = Ok true /\
   app_id (store w') = app_id (store w) /\
   client_secret (store w') = client_secret (store w) /\
   (forall v, lookup "access_token" [("access_token", JStr "A1"); ("refresh_token", JStr "R1")] = Some v ->
      truthy v = true -> access_token (store w') = v) /\
   ((forall v, lookup "access_token" [("access_token", JStr "A1"); ("refresh_token", JStr "R1")] = Some v ->
      truthy v = false) -> access_token (store w') = access_token (store w)) /\
   (forall v, lookup "refresh_token" [("access_token", JStr "A1"); ("refresh_token", JStr "R1")] = Some v ->
      truthy v = true -> refresh_token (store w') = v) /\
   ((forall v, lookup "refresh_token" [("access_token", JStr "A1"); ("refresh_token", JStr "R1")] = Some v ->
      truthy v = false) -> refresh_token (store w') = refresh_token (store w)) /\
   token_file w' = (if file_writable w then Some (store w') else token_file w)).
Proof.
  intros w. split; [reflexivity|].
  exact (refresh_ok_response w [] _ [] eq_refl eq_refl).
Defined.

(** ** Label download *)

Lemma bytes_eqb_eq (a b : bytes) : bytes_eqb a b = true -> a = b.
Proof.
  revert b; induction a as [|x a IH]; intros [|y b]; simpl; try discriminate; auto.
  intros H. apply andb_prop in H as [Hx Hr].
  apply Byte.byte_dec_bl in Hx. f_equal; auto.
Qed.

Lemma bytes_eqb_refl (a : bytes) : bytes_eqb a a = true.
Proof.
  induction a as [|x a IH]; simpl; [reflexivity|].
  rewrite (Byte.byte_dec_lb eq_refl). exact IH.
Qed.

(** The answer [_meli_request] returns is the last answer it consumed, and
    the last request sent went to the requested URL. *)
Lemma meli_request_last (meth p : string) (params hdrs : list (string * string)) (w : World) :
  match _meli_request meth p params hdrs w with
  | (Ok r, w') =>
      (exists pre, api_answers w = (pre ++ Some r :: api_answers w')%list) /\
      (exists rq rest, sent w' = rq :: rest /\ rq_url rq = _full_url p)
  | (Raise _, w') => exists pre, api_answers w = (pre ++ api_answers w')%list
  end.
Proof.
  unfold _meli_request, bind, gets, ret.
  unfold requests_request at 1.
  destruct (api_answers w) as [|[r1|] rest] eqn:Ha; cbn -[refresh requests_request].
  - exists []. reflexivity.
  - destruct (Z.eqb (status_code r1) 401 || Z.eqb (status_code r1) 403); cbn -[refresh requests_request].
    + set (w1 := set_api rest _ w).
      destruct (refresh_frame w1) as [b [Hb [Hapi [Hsent _]]]].
      destruct (refresh w1) as [rr w2] eqn:E. cbn [fst snd] in *. subst rr.
      destruct b; cbn -[requests_request].
      * unfold requests_request. rewrite Hapi. cbn.
        destruct rest as [|[r2|] rest']; cbn.
        -- exists [Some r1]. reflexivity.
        -- split; [exists [Some r1]; reflexivity|eauto].
        -- exists [Some r1; None]. reflexivity.
      * rewrite Hapi, Hsent. cbn. split; [exists []; reflexivity|eauto].
    + split; [exists []; reflexivity|eauto].
  - exists [None]. reflexivity.
Qed.

Lemma get_shipment_drains (sid : string) (w : World) :
  exists pre, api_answers w = (pre ++ api_answers (snd (_meli_get_shipment sid w)))%list.
Proof.
  unfold _meli_get_shipment, try_except, bind, ret, lift.
  pose proof (meli_request_last "GET" ("/shipments/" ++ sid) [] [("x-format-new", "true")] w) as H.
  destruct (_meli_request _ _ _ _ w) as [[r|e] w'].
  - destruct H as [[pre Hpre] _].
    destruct (Z.eqb (status_code r) 200); cbn;
      [destruct (resp_json r); cbn|]; exists (pre ++ [Some r])%list;
      rewrite <- app_assoc; exact Hpre.
  - exact H.
Qed.

(** C5: a label download hands out bytes only when they are the body of an
    HTTP 200 answer and begin with [%PDF]; any other body, even under a 200,
    yields no bytes.  This holds for [_meli_download_label_pdf] (where the
    accepted answer is the one to the [/shipment_labels] request) and for
    [download_label_pdf] of the app, where it is an equivalence. *)
Theorem label_pdf_magic_required :
  (forall (sid : string) (w : World) (b : bytes),
     fst (_meli_download_label_pdf sid w) = Ok (Some b) ->
     firstn 4 b = PDF_MAGIC /\
     exists pre r,
       api_answers w = (pre ++ Some r :: api_answers (snd (_meli_download_label_pdf sid w)))%list /\
       status_code r = 200%Z /\ content r = b /\
       exists rq rest, sent (snd (_meli_download_label_pdf sid w)) = rq :: rest /\
                       rq_url rq = MELI_API_BASE ++ "/shipment_labels") /\
  (forall (tok sid : string) (o : option Response) (b : bytes),
     fst (App.download_label_pdf tok sid o) = Some b <->
     exists r, o = Some r /\ status_code r = 200%Z /\ content r = b /\ firstn 4 b = PDF_MAGIC).
Proof.
  split.
  - intros sid w b.
    unfold _meli_download_label_pdf, bind, ret, lift, try_except.
    pose proof (get_shipment_drains sid w) as [pre1 H1].
    destruct (_meli_get_shipment sid w) as [[[sh|]|e] w1]; cbn [fst snd] in *;
      try discriminate.
    destruct (truthy sh); cbn -[_meli_request firstn]; [|discriminate].
    destruct (_explicacion_estado_label sh) as [[reason|]|e]; cbn -[_meli_request firstn]; try discriminate.
    pose proof (meli_request_last "GET" "/shipment_labels"
                  [("shipment_ids", sid); ("response_type", "pdf")]
                  [("Accept", "application/pdf")] w1) as H2.
    destruct (_meli_request _ _ _ _ w1) as [[r|e] w2]; cbn -[_meli_request firstn]; [|discriminate].
    destruct H2 as [[pre2 H2] Hsent].
    destruct (Z.eqb (status_code r) 200) eqn:Hs; cbn -[_meli_request firstn]; [|discriminate].
    destruct (bytes_eqb (firstn 4 (content r)) PDF_MAGIC) eqn:Hm; cbn -[_meli_request firstn]; [|discriminate].
    intros Hb. injection Hb as <-.
    split; [apply bytes_eqb_eq; exact Hm|].
    exists (pre1 ++ pre2)%list, r. rewrite H1, H2, <- app_assoc.
    split; [reflexivity|]. split; [apply Z.eqb_eq; exact Hs|]. split; [reflexivity|].
    exact Hsent.
  - intros tok sid o b. unfold App.download_label_pdf. split.
    + destruct o as [r|]; cbn -[firstn]; [|discriminate].
      destruct (Z.eqb (status_code r) 200) eqn:Hs;
        destruct (bytes_eqb (firstn 4 (content r)) PDF_MAGIC) eqn:Hm; cbn -[firstn];
        try (intros Hb; destruct (json_body r) as [j|]; [destruct j|]; cbn in Hb; discriminate).
      intros Hb. injection Hb as <-. exists r.
      split; [reflexivity|]. split; [apply Z.eqb_eq; exact Hs|].
      split; [reflexivity|]. apply bytes_eqb_eq. exact Hm.
    + intros [r [-> [Hs [<- Hm]]]]. cbn -[firstn].
      rewrite Hs, Hm, bytes_eqb_refl. reflexivity.
Qed.

Definition pdf_body : bytes := (PDF_MAGIC ++ [Byte.x2d; Byte.x31; Byte.x2e; Byte.x34])%list.

Definition world_label_ok : World :=
  mkWorld store0 None true
    [Some (mkResponse 200 [] (Some shipment_ready)); Some (mkResponse 200 pdf_body None)]
    [] [] [] 0.

Lemma label_pdf_magic_required_witness :
  firstn 4 pdf_body = PDF_MAGIC /\
  fst (App.download_label_pdf "T" "4001" (Some (mkResponse 200 pdf_body None))) = Some pdf_body.
Proof.
  split.
  - exact (proj1 (proj1 label_pdf_magic_required "4001" world_label_ok pdf_body eq_refl)).
  - apply (proj2 label_pdf_magic_required).
    exists (mkResponse 200 pdf_body None). repeat split.
Defined.

(** ** Scanning ([process_scan]) *)

Module ScanProps.
Import App.

Definition env_none : ScanEnv := mkScanEnv None None None None None false None.

Definition world_empty (pg : string) : AppWorld :=
  mkAppWorld [] 1 [] [] pg (JStr "") "2025-03-01T10:00:00".

(** C7 (counterexample): scanning [" ABC "], which is not in the store,
    inserts a record whose [guia] is ["ABC"], not the scanned input. *)
Lemma scan_unknown_verbatim_cex :
  ~ (exists row, db_log (process_scan env_none " ABC " (world_empty "ingresar")) = [DbInsert row]
                 /\ col row "guia" = JStr " ABC ").
Proof.
  intros [row [H Hg]]. vm_compute in H. injection H as <-. vm_compute in Hg. discriminate.
Qed.

(** C7 (amended): a scan whose stripped code [strip g] is non-empty and
    matches no record inserts exactly one "NO COINCIDENTE!" record whose
    [guia] is [strip g], leaves every existing record as it was and shows a
    warning; a scan that is empty after stripping writes nothing. *)
Theorem scan_unknown_inserts_no_coincidente (env : ScanEnv) (g : string) (w : AppWorld) :
  (strip g <> "" ->
   db_select_eq "guia" (JStr (strip g)) w = [] ->
   let w' := process_scan env g w in
   db_log w' = DbInsert (no_coincidente_row (strip g) (now w)) :: db_log w /\
   db w' = (db w ++ [("id", JNum (next_id w)) :: no_coincidente_row (strip g) (now w)])%list /\
   col (no_coincidente_row (strip g) (now w)) "guia" = JStr (strip g) /\
   col (no_coincidente_row (strip g) (now w)) "estado_escaneo" = JStr "NO COINCIDENTE!" /\
   exists msg, ui w' = Toast msg WARN_ICON :: ui w) /\
  (strip g = "" ->
   db (process_scan env g w) = db w /\ db_log (process_scan env g w) = db_log w).
Proof.
  split.
  - intros Hne Hsel. unfold process_scan, lookup_by_guia.
    destruct (String.eqb (strip g) "") eqn:E; [apply String.eqb_eq in E; contradiction|].
    rewrite Hsel. cbn. repeat split; eauto.
  - intros He. unfold process_scan. rewrite He. cbn. split; reflexivity.
Qed.

(** The scanned input is [\x1d] (a separator Python's [strip] removes)
    followed by [" ABC "]. *)
Definition scan_gs_abc : string := String (ascii_of_nat 29) " ABC ".

Lemma scan_unknown_inserts_no_coincidente_witness :
  let w' := process_scan env_none scan_gs_abc (world_empty "ingresar") in
  db_log w' = DbInsert (no_coincidente_row "ABC" "2025-03-01T10:00:00") :: [] /\
  db w' = ([] ++ [("id", JNum 1) :: no_coincidente_row "ABC" "2025-03-01T10:00:00"])%list /\
  col (no_coincidente_row "ABC" "2025-03-01T10:00:00") "guia" = JStr "ABC" /\
  col (no_coincidente_row "ABC" "2025-03-01T10:00:00") "estado_escaneo" = JStr "NO COINCIDENTE!" /\
  exists msg, ui w' = Toast msg WARN_ICON :: [].
Proof.
  exact (proj1 (scan_unknown_inserts_no_coincidente env_none scan_gs_abc (world_empty "ingresar"))
           ltac:(discriminate) eq_refl).
Defined.

(** The session token, order id and pack id that [print_fetch] reads. *)
Definition scan_token (w : AppWorld) : string :=
  strip (py_str (py_or (manual_token w) (JStr ""))).

Definition col_opt (m : Row) (c : string) : option string :=
  let o := col_str m c in if String.eqb o "" then None else Some o.

(** Step 1 of the print branch serves the stored PDF: the record's
    [archivo_adjunto] is non-empty and reachable and its bytes begin with
    [%PDF]. *)
Definition stored_pdf_served (env : ScanEnv) (m : Row) : bool :=
  let archivo_public := py_str (py_or (col m "archivo_adjunto") (JStr "")) in
  negb (String.eqb archivo_public "") && url_disponible env archivo_public &&
  match storage_get env with
  | Some b => bytes_eqb (firstn 4 b) PDF_MAGIC
  | None => false
  end.

(** No record written. *)
Definition no_write (w w' : AppWorld) : Prop :=
  db_log w' = db_log w /\ db w' = db w.

(** The one write of steps 2 and 3: the token is non-empty, a shipment id
    was derived with it from the record's order / pack, its label was
    downloaded as a PDF and uploaded to a non-empty public URL, and then the
    print-timestamp update with that URL is the only write. *)
Definition fetch_wrote (env : ScanEnv) (guia : string) (m : Row) (w w' : AppWorld) : Prop :=
  exists sid pdf url,
    scan_token w <> "" /\
    derive_shipment_id (scan_token w) (col_opt m "orden_meli") (col_opt m "pack_id")
      (order_resp env) (pack_resp env) = Some sid /\
    fst (download_label_pdf (scan_token w) sid (label_resp env)) = Some pdf /\
    upload_ok env = true /\ public_url env = Some url /\ url <> "" /\
    db_log w' = DbUpdate "guia" (JStr guia) (impreso_patch (now w) url) :: db_log w /\
    db w' = db (set_impreso_ok guia url w).

(** The writes the print branch can make: none, or the print-timestamp
    update when no stored PDF was served and the fetch and upload went
    through. *)
Definition print_outcome (env : ScanEnv) (guia : string) (m : Row) (w w' : AppWorld) : Prop :=
  no_write w w' \/ (stored_pdf_served env m = false /\ fetch_wrote env guia m w w').

Lemma print_fetch_outcome (env : ScanEnv) (guia asig : string) (m : Row) (w : AppWorld) :
  no_write w (print_fetch env guia asig m w) \/
  fetch_wrote env guia m w (print_fetch env guia asig m w).
Proof.
  unfold print_fetch, no_write, fetch_wrote.
  change (strip (py_str (py_or (manual_token w) (JStr "")))) with (scan_token w).
  change (let o := col_str m "orden_meli" in if String.eqb o "" then None else Some o)
    with (col_opt m "orden_meli").
  change (let p := col_str m "pack_id" in if String.eqb p "" then None else Some p)
    with (col_opt m "pack_id").
  destruct (String.eqb (scan_token w) "") eqn:Etok; [left; split; reflexivity|].
  destruct (derive_shipment_id _ _ _ _ _) as [sid|] eqn:Esid; [|left; split; reflexivity].
  destruct (download_label_pdf _ sid _) as [[pdf|] err] eqn:Edl; [|left; split; reflexivity].
  unfold upload_pdf_to_storage.
  destruct (String.eqb asig "") eqn:Ea; [left; split; reflexivity|].
  destruct (upload_ok env) eqn:Eu; [|left; split; reflexivity].
  destruct (public_url env) as [url|] eqn:Epu; [|left; split; reflexivity].
  destruct (String.eqb url "") eqn:Eurl; [left; split; reflexivity|].
  right. exists sid, pdf, url.
  split; [intros H; rewrite H in Etok; discriminate|].
  split; [first [exact Esid | reflexivity]|].
  split; [first [rewrite Edl; reflexivity | reflexivity]|].
  split; [reflexivity|]. split; [reflexivity|].
  split; [intros H; subst url; discriminate|].
  split; reflexivity.
Qed.

(** The worlds [emit] produces keep the store, the token and the clock. *)
Lemma no_write_emit (e : UiEvent) (w w' : AppWorld) :
  no_write (emit e w) w' -> no_write w w'.
Proof. unfold no_write. cbn. auto. Qed.

Lemma fetch_wrote_emit (env : ScanEnv) (guia : string) (m : Row) (e : UiEvent) (w w' : AppWorld) :
  fetch_wrote env guia m (emit e w) w' -> fetch_wrote env guia m w w'.
Proof. unfold fetch_wrote. cbn. auto. Qed.

Lemma print_fetch_emit_outcome (env : ScanEnv) (guia asig : string) (m : Row) (e : UiEvent)
    (w : AppWorld) :
  stored_pdf_served env m = false ->
  print_outcome env guia m w (print_fetch env guia asig m (emit e w)).
Proof.
  intros Hs. destruct (print_fetch_outcome env guia asig m (emit e w)) as [H|H].
  - left. exact (no_write_emit _ _ _ H).
  - right. split; [exact Hs|]. exact (fetch_wrote_emit _ _ _ _ _ _ H).
Qed.

Definition print_row : Row :=
  [("id", JNum 1); ("asignacion", JStr "BOX-7"); ("guia", JStr "G1");
   ("orden_meli", JStr "O1"); ("pack_id", JStr ""); ("archivo_adjunto", JStr "");
   ("fecha_impresion", JNull)].

Definition world_print : AppWorld :=
  mkAppWorld [print_row] 2 [] [] "imprimir" (JStr "TOKEN") "2025-03-01T10:00:00".

(** The order answer names shipment 77; the label answer is a 400
    [not_printable_status]. *)
Definition env_label_refused : ScanEnv :=
  mkScanEnv None None
    (Some (mkResponse 200 [] (Some (JObj [("shipping", JObj [("id", JNum 77)])])))) None
    (Some (mkResponse 400 [] (Some (JObj [("message", JStr "not_printable_status")]))))
    true (Some "https://storage/BOX-7.pdf").

(** C9 (counterexample): a print scan of a known code whose label fetch
    fails (the download answers [None]) writes nothing: the record keeps
    [fecha_impresion = None], no print-timestamp update was applied before
    the fetch. *)
Lemma print_scan_label_failure_cex :
  fst (download_label_pdf "TOKEN" "77" (label_resp env_label_refused)) = None /\
  db_log (process_scan env_label_refused "G1" world_print) = [] /\
  db (process_scan env_label_refused "G1" world_print) = [print_row] /\
  col print_row "fecha_impresion" = JNull.
Proof. vm_compute. repeat split. Qed.

(** C9 (amended): for a print-mode scan of a known code, the record store
    is either left untouched or receives exactly one write, the
    print-timestamp update; that write happens only when no stored PDF was
    served, the session token is non-empty, a shipment id was derived, its
    label was downloaded as a PDF and uploaded to a non-empty public URL.
    So a served stored PDF, or a missing token, shipment id, label or upload,
    leaves the store as it was. *)
Theorem print_scan_writes_after_upload (env : ScanEnv) (g : string) (w : AppWorld) (m : Row) :
  page w = "imprimir" ->
  strip g <> "" ->
  lookup_by_guia (strip g) w = Some m ->
  m <> [] ->
  print_outcome env (strip g) m w (process_scan env g w).
Proof.
  intros Hp Hne Hl Hm. unfold process_scan.
  destruct (String.eqb (strip g) "") eqn:E; [apply String.eqb_eq in E; contradiction|].
  rewrite Hl. destruct m as [|kv m']; [contradiction|].
  rewrite Hp. cbn [String.eqb Ascii.eqb Bool.eqb]. unfold process_print.
  set (m := kv :: m').
  unfold stored_pdf_served.
  destruct (_ && _) eqn:Ec.
  - destruct (storage_get env) as [pdf|] eqn:Es.
    + destruct (bytes_eqb _ _) eqn:Eb.
      * left. split; reflexivity.
      * apply print_fetch_emit_outcome. unfold stored_pdf_served. rewrite Ec, Es. exact Eb.
    + apply print_fetch_emit_outcome. unfold stored_pdf_served. rewrite Ec, Es. reflexivity.
  - destruct (print_fetch_outcome env (strip g)
                (let asig0 := strip (py_str (py_or (col m "asignacion") (JStr "etiqueta"))) in
                 if String.eqb asig0 "" then "etiqueta" else asig0) m w) as [H|H].
    + left. exact H.
    + right. split; [unfold stored_pdf_served; rewrite Ec; reflexivity|exact H].
Qed.

Definition env_label_ok : ScanEnv :=
  mkScanEnv None None
    (Some (mkResponse 200 [] (Some (JObj [("shipping", JObj [("id", JNum 77)])])))) None
    (Some (mkResponse 200 pdf_body None))
    true (Some "https://storage/BOX-7.pdf").

Lemma print_scan_writes_after_upload_witness :
  print_outcome env_label_ok "G1" print_row world_print (process_scan env_label_ok "G1" world_print).
Proof.
  apply (print_scan_writes_after_upload env_label_ok "G1" world_print print_row).
  - reflexivity.
  - discriminate.
  - reflexivity.
  - discriminate.
Defined.

End ScanProps.

(** ** Order sync ([sync_meli_orders]) *)

Module SyncProps.
Import App.

Definition stored_row : Row :=
  [("id", JNum 1); ("asignacion", JStr "A7"); ("guia", JStr "G7");
   ("orden_meli", JStr ""); ("pack_id", JStr "P1")].

Definition world_sync : AppWorld :=
  mkAppWorld [stored_row] 2 [] [] "datos" (JStr "TOKEN") "2025-03-01T10:00:00".

Definition order_o1 : Basic :=
  mkBasic "O1" (JStr "paid") JNull 1 (JStr "SKU1") (JStr "Item") (JStr "MLC1") "P1" JNull.

(** C8 (counterexample): a stored record with the same [pack_id] and the
    same [asignacion] as the fetched order, but another [orden_meli], is not
    updated: a second row is inserted. *)
Lemma sync_pack_match_inserts_cex :
  col stored_row "pack_id" =
    col (row_sync "2025-03-01T10:00:00" [("O1", "A7")] [] [] order_o1) "pack_id" /\
  col stored_row "asignacion" =
    col (row_sync "2025-03-01T10:00:00" [("O1", "A7")] [] [] order_o1) "asignacion" /\
  db_log (sync_upsert_all [("O1", "A7")] [] [] [order_o1] world_sync) =
    [DbInsert (row_sync "2025-03-01T10:00:00" [("O1", "A7")] [] [] order_o1)] /\
  length (db (sync_upsert_all [("O1", "A7")] [] [] [order_o1] world_sync)) = 2.
Proof. vm_compute. repeat split. Qed.

(** C8 (amended): each fetched order is matched against the store on
    [orden_meli] only.  When some record has [orden_meli] equal to the
    order id, the first such record is updated in place (by its [id]) and
    no row is added; otherwise a new row is inserted, whatever the
    [asignacion] or [pack_id] of the stored records. *)
Theorem sync_upsert_by_orden_meli (t : string) (notes pics ships : list (string * string))
    (b : Basic) (w : AppWorld) :
  let row := row_sync t notes pics ships b in
  let w' := sync_upsert t notes pics ships b w in
  (forall ex rest, db_select_eq "orden_meli" (JStr (b_oid b)) w = ex :: rest ->
     db_log w' = DbUpdate "id" (col ex "id") (sync_patch row) :: db_log w /\
     length (db w') = length (db w)) /\
  (db_select_eq "orden_meli" (JStr (b_oid b)) w = [] ->
     db_log w' = DbInsert row :: db_log w /\
     db w' = (db w ++ [("id", JNum (next_id w)) :: row])%list).
Proof.
  intros row w'. subst row w'. unfold sync_upsert. split.
  - intros ex rest H. rewrite H. cbn. split; [reflexivity|apply length_map].
  - intros H. rewrite H. cbn. split; reflexivity.
Qed.

Lemma sync_upsert_by_orden_meli_witness :
  db_log (sync_upsert "2025-03-01T10:00:00" [] [] [] order_o1 world_sync) =
    DbInsert (row_sync "2025-03-01T10:00:00" [] [] [] order_o1) :: db_log world_sync.
Proof.
  exact (proj1 (proj2 (sync_upsert_by_orden_meli "2025-03-01T10:00:00" [] [] [] order_o1
                         world_sync) eq_refl)).
Defined.

End SyncProps.

(* ================================================================== *)
(** * Further properties of [meli_envios2.py] *)

Module RequestProps.

(** ** Shared lemmas *)

(** An answer other than 401 / 403 is returned as it is, after one request. *)
Lemma meli_request_plain (w : World) (meth p : string) (params hdrs : list (string * string))
    (r : Response) (rest : list (option Response)) :
  api_answers w = Some r :: rest ->
  Z.eqb (status_code r) 401 || Z.eqb (status_code r) 403 = false ->
  _meli_request meth p params hdrs w =
    (Ok r, set_api rest
             (mkRequest meth (_full_url p)
                (dict_update (_meli_headers (py_str (py_or (access_token (store w)) (JStr ""))))
                             hdrs) params :: sent w) w).
Proof.
  intros Ha Hs. unfold _meli_request, bind, gets, ret, requests_request.
  rewrite Ha. cbn -[Z.eqb]. rewrite Hs. reflexivity.
Qed.

Lemma status_401_403 (r : Response) :
  status_code r = 401%Z \/ status_code r = 403%Z ->
  Z.eqb (status_code r) 401 || Z.eqb (status_code r) 403 = true.
Proof. intros [-> | ->]; reflexivity. Qed.

Lemma status_not_401_403 (r : Response) :
  status_code r <> 401%Z -> status_code r <> 403%Z ->
  Z.eqb (status_code r) 401 || Z.eqb (status_code r) 403 = false.
Proof.
  intros H1 H3. apply orb_false_intro; apply Z.eqb_neq; assumption.
Qed.

(** [dict.update] with keys other than [k] keeps the entry of [k] in front. *)
Lemma dict_update_keeps_head (k x : string) (d upd : list (string * string)) :
  ~ In k (map fst upd) ->
  dict_update ((k, x) :: d) upd = (k, x) :: dict_update d upd.
Proof.
  unfold dict_update. revert d.
  induction upd as [|[k' v'] upd IH]; intros d Hn; [reflexivity|].
  cbn [fold_left fst snd]. cbn [map fst In] in Hn.
  assert (Hk : String.eqb k' k = false).
  { apply String.eqb_neq. intros ->. apply Hn. left. reflexivity. }
  cbn [dict_set]. rewrite Hk. apply IH. intros Hin. apply Hn. right. exact Hin.
Qed.

(** A dict in which a key is found is truthy. *)
Lemma lookup_some_truthy (k : string) (l : list (string * json)) (v : json) :
  lookup k l = Some v -> truthy (JObj l) = true.
Proof. destruct l; [discriminate|reflexivity]. Qed.

Lemma py_or_truthy (a b : json) : truthy a = true -> py_or a b = a.
Proof. unfold py_or. now intros ->. Qed.

(** A successful refresh whose answer carries a non-empty [access_token]
    stores it. *)
Lemma refresh_stores_access (w : World) (o : Response) (orest : list (option Response))
    (l : list (string * json)) (a : string) :
  can_refresh (store w) = true ->
  oauth_answers w = Some o :: orest ->
  status_code o = 200%Z ->
  json_body o = Some (JObj l) ->
  lookup "access_token" l = Some (JStr a) -> a <> "" ->
  fst (refresh w) = Ok true /\ access_token (store (snd (refresh w))) = JStr a.
Proof.
  destruct w as [s f fw api oa snt os rc]. cbn [store oauth_answers].
  intros Hc Ho Hs Hj Hl Ha. subst oa.
  unfold refresh, bind, modify, gets, ret, lift, try_except, requests_post_oauth, _save_file.
  cbn -[can_refresh]. rewrite Hc. cbn. rewrite Hs. cbn.
  unfold resp_json. rewrite Hj. cbn.
  rewrite (py_or_truthy _ _ (lookup_some_truthy _ _ _ Hl)). cbn. rewrite Hl.
  assert (Ha' : py_or (JStr a) (access_token s) = JStr a).
  { apply py_or_truthy. cbn. destruct (String.eqb a "") eqn:E; [|reflexivity].
    apply String.eqb_eq in E. contradiction. }
  rewrite Ha'.
  destruct (match lookup "refresh_token" l with Some v => v | None => JNull end) as [] eqn:Er;
    cbn; split_ifs; split; reflexivity.
Qed.

(** ** Authenticated requests *)

(** X1: an answer other than 401 / 403 is returned as it is: one request,
    to the normalised URL, with the stored token as bearer and the caller's
    headers on top; [refresh()] is not called. *)
Theorem meli_request_no_retry (w : World) (meth p : string)
    (params hdrs : list (string * string)) (r : Response) (rest : list (option Response)) :
  api_answers w = Some r :: rest ->
  status_code r <> 401%Z -> status_code r <> 403%Z ->
  _meli_request meth p params hdrs w =
    (Ok r, set_api rest
             (mkRequest meth (_full_url p)
                (dict_update (_meli_headers (py_str (py_or (access_token (store w)) (JStr ""))))
                             hdrs) params :: sent w) w).
Proof.
  intros Ha H1 H3. apply meli_request_plain; [exact Ha|].
  apply status_not_401_403; assumption.
Qed.

Lemma meli_request_no_retry_witness :
  _meli_request "GET" "/users/me" [] [] (set_api [Some (mkResponse 200 [] None)] [] (mkWorld store0 None true [] [] [] [] 0)) =
    (Ok (mkResponse 200 [] None),
     set_api [] [mkRequest "GET" (_full_url "/users/me") (dict_update (_meli_headers "A0") []) []]
       (mkWorld store0 None true [] [] [] [] 0)).
Proof.
  apply (meli_request_no_retry
           (set_api [Some (mkResponse 200 [] None)] [] (mkWorld store0 None true [] [] [] [] 0))
           "GET" "/users/me" [] [] (mkResponse 200 [] None) []); [reflexivity|discriminate|discriminate].
Defined.

(** X2: without refresh credentials, a 401 or 403 is returned as it is:
    one request, no OAuth request, the stored tokens unchanged. *)
Theorem meli_request_no_credentials (w : World) (meth p : string)
    (params hdrs : list (string * string)) (r : Response) (rest : list (option Response)) :
  api_answers w = Some r :: rest ->
  status_code r = 401%Z \/ status_code r = 403%Z ->
  can_refresh (store w) = false ->
  let (res, w') := _meli_request meth p params hdrs w in
  res = Ok r /\ api_answers w' = rest /\ length (sent w') = S (length (sent w)) /\
  oauth_sent w' = oauth_sent w /\ store w' = store w /\ token_file w' = token_file w.
Proof.
  destruct w as [s f fw api oa snt os rc]. cbn [api_answers store].
  intros Ha Hs Hc. subst api.
  unfold _meli_request, bind, gets, ret, requests_request at 1. cbn -[Z.eqb refresh].
  rewrite (status_401_403 r Hs). cbn -[can_refresh].
  unfold refresh, bind, modify, gets, ret. cbn -[can_refresh]. rewrite Hc. cbn.
  repeat split; reflexivity.
Qed.

Lemma meli_request_no_credentials_witness :
  let w := mkWorld (mkTokenStore JNull JNull (JStr "A0") JNull) None true
                   [Some (mkResponse 403 [] None)] [] [] [] 0 in
  fst (_meli_request "GET" "/users/me" [] [] w) = Ok (mkResponse 403 [] None).
Proof.
  intros w. pose proof (meli_request_no_credentials w "GET" "/users/me" [] [] (mkResponse 403 [] None) []
                          eq_refl (or_intror eq_refl) eq_refl) as H.
  destruct (_meli_request "GET" "/users/me" [] [] w) as [res w']. cbn. apply H.
Defined.

(** X3: after a 401 / 403 and a refresh whose answer carries a new
    non-empty [access_token], the retry carries that token as
    [Authorization: Bearer <token>] (unless the caller set [Authorization]
    itself), goes to the same URL, and its answer is returned. *)
Theorem meli_request_retry_uses_new_token (w : World) (meth p : string)
    (params hdrs : list (string * string)) (r1 r2 o : Response)
    (rest orest : list (option Response)) (l : list (string * json)) (a : string) :
  api_answers w = Some r1 :: Some r2 :: rest ->
  status_code r1 = 401%Z \/ status_code r1 = 403%Z ->
  can_refresh (store w) = true ->
  oauth_answers w = Some o :: orest ->
  status_code o = 200%Z ->
  json_body o = Some (JObj l) ->
  lookup "access_token" l = Some (JStr a) -> a <> "" ->
  ~ In "Authorization" (map fst hdrs) ->
  let (res, w') := _meli_request meth p params hdrs w in
  res = Ok r2 /\ api_answers w' = rest /\
  exists rq1 rq2 h, sent w' = rq2 :: rq1 :: sent w /\
    rq_url rq1 = _full_url p /\ rq_url rq2 = _full_url p /\
    rq_headers rq2 = ("Authorization", "Bearer " ++ a) :: h.
Proof.
  intros Ha Hs Hc Ho Hos Hj Hl Hne Hh.
  unfold _meli_request, bind, gets, ret. unfold requests_request at 1. rewrite Ha.
  cbn -[Z.eqb refresh requests_request]. rewrite (status_401_403 r1 Hs).
  cbn -[refresh requests_request].
  set (w1 := set_api (Some r2 :: rest) _ w).
  destruct (refresh_frame w1) as [b [_ [Hapi [Hsent _]]]].
  destruct (refresh_stores_access w1 o orest l a Hc Ho Hos Hj Hl Hne) as [Hok Hacc].
  destruct (refresh w1) as [rr w2] eqn:E. cbn [fst snd] in *. subst rr.
  unfold requests_request. rewrite Hapi. cbn -[dict_update _meli_headers].
  split; [reflexivity|]. split; [reflexivity|].
  rewrite Hsent. cbn -[dict_update _meli_headers].
  eexists _, _, _. split; [reflexivity|]. split; [reflexivity|]. split; [reflexivity|].
  cbn [rq_headers]. rewrite Hacc, py_or_truthy.
  2:{ cbn. destruct (String.eqb a "") eqn:Ea; [apply String.eqb_eq in Ea; contradiction|reflexivity]. }
  cbn [py_str]. unfold _meli_headers. rewrite (dict_update_keeps_head _ _ [] hdrs Hh). reflexivity.
Qed.

Definition oauth_new_token : Response :=
  mkResponse 200 [] (Some (JObj [("access_token", JStr "A1")])).

Definition world_401_ok : World :=
  mkWorld store0 None true
    [Some (mkResponse 401 [] None); Some (mkResponse 200 [] None)]
    [Some oauth_new_token] [] [] 0.

Lemma meli_request_retry_uses_new_token_witness :
  fst (_meli_request "GET" "/users/me" [] [] world_401_ok) = Ok (mkResponse 200 [] None).
Proof.
  pose proof (meli_request_retry_uses_new_token world_401_ok "GET" "/users/me" [] []
                (mkResponse 401 [] None) (mkResponse 200 [] None) oauth_new_token [] []
                [("access_token", JStr "A1")] "A1" eq_refl (or_introl eq_refl) eq_refl eq_refl
                eq_refl eq_refl eq_refl ltac:(discriminate) ltac:(intros [])) as H.
  destruct (_meli_request "GET" "/users/me" [] [] world_401_ok) as [res w']. cbn.
  apply H.
Defined.

(** X4: without credentials, [refresh()] answers [False] and only counts
    the call: no OAuth request, tokens and token file untouched. *)
Theorem refresh_without_credentials (w : World) :
  can_refresh (store w) = false ->
  refresh w = (Ok false, bump_refresh_calls w).
Proof.
  destruct w as [s f fw api oa snt os rc]. cbn [store]. intros Hc.
  unfold refresh, bind, modify, gets, ret. cbn -[can_refresh]. rewrite Hc. reflexivity.
Qed.

Lemma refresh_without_credentials_witness :
  let w := mkWorld (mkTokenStore (JStr "app") JNull (JStr "A0") (JStr "R0")) None true [] [] [] [] 0 in
  refresh w = (Ok false, bump_refresh_calls w).
Proof. intros w. apply refresh_without_credentials. reflexivity. Defined.

(** X5: [_full_url] always yields an [http://] or [https://] URL, and
    applying it to its own result changes nothing. *)
Theorem full_url_absolute (p : string) :
  (startswith (_full_url p) "http://" || startswith (_full_url p) "https://") = true /\
  _full_url (_full_url p) = _full_url p.
Proof.
  unfold _full_url.
  destruct (startswith p "http://" || startswith p "https://") eqn:E; cbv iota.
  - rewrite E. split; reflexivity.
  - split; reflexivity.
Qed.

End RequestProps.

Module EligibilityProps.

(** ** Label eligibility *)

(** X6: the check answers [None] (printable) exactly for a dict shipment
    whose [logistic] is a dict with [mode] ["me2"], whose logistic type
    ([type], or [logistic_type] when [type] is missing or falsy) is one of
    [LABEL_ALLOWED_TYPES], whose [status] is ["ready_to_ship"] and whose
    [substatus] is ["ready_to_print"] or ["printed"]. *)
Theorem explicacion_eligible_iff (sh : json) :
  _explicacion_estado_label sh = Ok None <->
  exists fields lf t ss,
    sh = JObj fields /\ lookup "logistic" fields = Some (JObj lf) /\
    lookup "mode" lf = Some (JStr "me2") /\
    py_or (App.col lf "type") (App.col lf "logistic_type") = JStr t /\
    In t LABEL_ALLOWED_TYPES /\
    lookup "status" fields = Some (JStr "ready_to_ship") /\
    lookup "substatus" fields = Some (JStr ss) /\ In ss ["ready_to_print"; "printed"].
Proof.
  split.
  - intros H. destruct sh as [| | | | |fields]; try (cbn in H; discriminate H).
    unfold _explicacion_estado_label in H. rewrite get_obj in H. cbn [res_bind] in H.
    destruct (lookup "logistic" fields) as [lg|] eqn:Hl; [|cbn in H; discriminate H].
    destruct (truthy lg) eqn:Htl;
      [rewrite (RequestProps.py_or_truthy lg _ Htl) in H|rewrite (py_or_falsy lg Htl) in H; cbn in H; discriminate H].
    destruct lg as [| | | | |lf]; try (cbn in H; discriminate H).
    rewrite !get_obj in H. cbn [res_bind] in H.
    destruct (lookup "mode" lf) as [m|] eqn:Hm; [|cbn in H; discriminate H].
    destruct m as [| | |ms| |]; try (cbn in H; discriminate H).
    cbn [eq_str] in H. destruct (String.eqb ms "me2") eqn:Ems; [|cbn in H; discriminate H].
    apply String.eqb_eq in Ems; subst ms. cbn [negb] in H.
    change (match lookup "type" lf with Some v => v | None => JNull end) with (App.col lf "type") in H.
    change (match lookup "logistic_type" lf with Some v => v | None => JNull end)
      with (App.col lf "logistic_type") in H.
    destruct (py_or (App.col lf "type") (App.col lf "logistic_type")) as [| | |t| |] eqn:Ety;
      try (cbn in H; discriminate H).
    cbn [eq_str in_str_set res_bind] in H.
    destruct (String.eqb t "fulfillment"); [cbn in H; discriminate H|].
    destruct (existsb (eq_str (JStr t)) LABEL_ALLOWED_TYPES) eqn:Hin; [|cbn in H; discriminate H].
    cbn [negb] in H.
    destruct (eq_str (match lookup "status" fields with Some v => v | None => JNull end) "pending" &&
              eq_str (match lookup "substatus" fields with Some v => v | None => JNull end) "buffered").
    { repeat match type of H with
             | context [res_bind ?m _] => destruct m; cbn [res_bind] in H
             | context [if ?b then _ else _] => destruct b
             end; discriminate H. }
    destruct (lookup "status" fields) as [[| | |st| |]|] eqn:Hst; try (cbn in H; discriminate H).
    cbn [eq_str] in H. destruct (String.eqb st "ready_to_ship") eqn:Est; [|cbn in H; discriminate H].
    apply String.eqb_eq in Est. subst st. cbn [negb] in H.
    destruct (lookup "substatus" fields) as [[| | |ss| |]|] eqn:Hss; try (cbn in H; discriminate H).
    cbn [in_str_set res_bind] in H.
    destruct (existsb (eq_str (JStr ss)) ["ready_to_print"; "printed"]) eqn:Hsin; [|cbn in H; discriminate H].
    exists fields, lf, t, ss. repeat split; auto.
    + apply existsb_exists in Hin as [x [Hx Hex]]. cbn in Hex. apply String.eqb_eq in Hex. subst. exact Hx.
    + apply existsb_exists in Hsin as [x [Hx Hex]]. cbn in Hex. apply String.eqb_eq in Hex. subst. exact Hx.
  - intros [fields [lf [t [ss [-> [Hl [Hm [Ht [Hin [Hs [Hss Hsin]]]]]]]]]]].
    unfold _explicacion_estado_label. rewrite get_obj, Hl. cbn [res_bind].
    rewrite py_or_empty_obj, !get_obj, Hm. cbn [res_bind].
    change (match lookup "type" lf with Some v => v | None => JNull end) with (App.col lf "type").
    change (match lookup "logistic_type" lf with Some v => v | None => JNull end)
      with (App.col lf "logistic_type").
    rewrite Ht. rewrite Hs, Hss.
    cbn in Hin. destruct Hin as [<-|[<-|[<-|[<-|[]]]]];
      cbn in Hsin; destruct Hsin as [<-|[<-|[]]]; reflexivity.
Qed.

(** An eligible shipment typed through [logistic_type] only. *)
Definition shipment_printed : json :=
  JObj [("logistic", JObj [("mode", JStr "me2"); ("logistic_type", JStr "cross_docking")]);
        ("status", JStr "ready_to_ship"); ("substatus", JStr "printed")].

Lemma explicacion_eligible_iff_witness :
  _explicacion_estado_label shipment_printed = Ok None.
Proof.
  apply (proj2 (explicacion_eligible_iff shipment_printed)).
  exists [("logistic", JObj [("mode", JStr "me2"); ("logistic_type", JStr "cross_docking")]);
          ("status", JStr "ready_to_ship"); ("substatus", JStr "printed")],
         [("mode", JStr "me2"); ("logistic_type", JStr "cross_docking")],
         "cross_docking", "printed".
  repeat split; cbn; auto 6.
Defined.

(** X7: a ME2 shipment whose logistic type is ["fulfillment"] (through
    [type] or [logistic_type]) gets the fulfillment reason, whatever its
    status and substatus. *)
Theorem explicacion_fulfillment (fields lf : list (string * json)) :
  lookup "logistic" fields = Some (JObj lf) ->
  lookup "mode" lf = Some (JStr "me2") ->
  py_or (App.col lf "type") (App.col lf "logistic_type") = JStr "fulfillment" ->
  _explicacion_estado_label (JObj fields) = Ok (Some MSG_FULFILLMENT).
Proof.
  intros Hl Hm Ht.
  unfold _explicacion_estado_label. rewrite get_obj, Hl. cbn [res_bind].
  rewrite py_or_empty_obj, !get_obj, Hm. cbn [res_bind].
  change (match lookup "type" lf with Some v => v | None => JNull end) with (App.col lf "type").
  change (match lookup "logistic_type" lf with Some v => v | None => JNull end)
    with (App.col lf "logistic_type").
  rewrite Ht. reflexivity.
Qed.

Definition fulfillment_logistic : list (string * json) :=
  [("mode", JStr "me2"); ("type", JNull); ("logistic_type", JStr "fulfillment")].

Definition fulfillment_fields : list (string * json) :=
  [("logistic", JObj fulfillment_logistic); ("status", JStr "ready_to_ship");
   ("substatus", JStr "ready_to_print")].

Lemma explicacion_fulfillment_witness :
  _explicacion_estado_label (JObj fulfillment_fields) = Ok (Some MSG_FULFILLMENT).
Proof.
  apply (explicacion_fulfillment fulfillment_fields fulfillment_logistic);
    reflexivity.
Defined.

(** ** Label download *)

(** X8: when the shipment is found but the check gives a reason, no label
    is requested: the download answers [None] and the world is the one the
    shipment lookup left. *)
Theorem download_label_skips_ineligible (sid : string) (w : World) (sh : json) (reason : string) :
  fst (_meli_get_shipment sid w) = Ok (Some sh) ->
  truthy sh = true ->
  _explicacion_estado_label sh = Ok (Some reason) ->
  _meli_download_label_pdf sid w = (Ok None, snd (_meli_get_shipment sid w)).
Proof.
  intros Hg Ht Hr. unfold _meli_download_label_pdf, bind.
  destruct (_meli_get_shipment sid w) as [r w1]. cbn [fst snd] in *. subst r.
  rewrite Ht. cbn [negb]. unfold lift. rewrite Hr. reflexivity.
Qed.

Definition shipment_printed_me1 : json :=
  JObj [("logistic", JObj [("mode", JStr "me1"); ("type", JStr "drop_off")]);
        ("status", JStr "ready_to_ship"); ("substatus", JStr "ready_to_print")].

Definition world_not_me2 : World :=
  mkWorld store0 None true [Some (mkResponse 200 [] (Some shipment_printed_me1))] [] [] [] 0.

Lemma download_label_skips_ineligible_witness :
  _meli_download_label_pdf "4001" world_not_me2 =
    (Ok None, snd (_meli_get_shipment "4001" world_not_me2)).
Proof.
  apply (download_label_skips_ineligible "4001" world_not_me2 shipment_printed_me1 MSG_NOT_ME2);
    vm_compute; reflexivity.
Defined.

(** X9: a shipment whose [logistic] field is a truthy value other than a
    dict makes the download raise [AttributeError] (the check is not
    guarded by a [try]). *)
Theorem download_label_raises_on_bad_logistic (sid : string) (w : World)
    (fields : list (string * json)) (lg : json) :
  fst (_meli_get_shipment sid w) = Ok (Some (JObj fields)) ->
  lookup "logistic" fields = Some lg ->
  truthy lg = true ->
  (forall l, lg <> JObj l) ->
  fst (_meli_download_label_pdf sid w) = Raise AttributeError.
Proof.
  intros Hg Hl Ht Hn. unfold _meli_download_label_pdf, bind.
  destruct (_meli_get_shipment sid w) as [r w1]. cbn [fst snd] in *. subst r.
  rewrite (RequestProps.lookup_some_truthy _ _ _ Hl). cbn [negb]. unfold lift.
  unfold _explicacion_estado_label. rewrite get_obj, Hl. cbn [res_bind].
  rewrite (RequestProps.py_or_truthy _ _ Ht).
  destruct lg as [| | | | |l]; try reflexivity.
  exfalso. exact (Hn l eq_refl).
Qed.

Definition shipment_bad_logistic : json :=
  JObj [("logistic", JArr [JStr "me2"]); ("status", JStr "ready_to_ship")].

Definition world_bad_logistic : World :=
  mkWorld store0 None true [Some (mkResponse 200 [] (Some shipment_bad_logistic))] [] [] [] 0.

Lemma download_label_raises_on_bad_logistic_witness :
  fst (_meli_download_label_pdf "4001" world_bad_logistic) = Raise AttributeError.
Proof.
  apply (download_label_raises_on_bad_logistic "4001" world_bad_logistic
           [("logistic", JArr [JStr "me2"]); ("status", JStr "ready_to_ship")] (JArr [JStr "me2"]));
    [reflexivity|reflexivity|reflexivity|discriminate].
Defined.

End EligibilityProps.

Module LookupProps.

(** ** Shipment lookups *)

(** X10: when the order answer (a 200 dict) has a truthy [shipping.id],
    that id is the result after one request: neither the pack nor the
    shipment search is queried, whatever [pack_id] the order carries. *)
Theorem shipment_id_from_order_shipping_first (o : string) (w : World) (r : Response)
    (rest : list (option Response)) (d s : list (string * json)) (v : json) :
  api_answers w = Some r :: rest ->
  status_code r = 200%Z ->
  json_body r = Some (JObj d) ->
  lookup "shipping" d = Some (JObj s) ->
  lookup "id" s = Some v -> truthy v = true ->
  let (res, w') := _meli_get_shipment_id_from_order o w in
  res = Ok (Some (py_str v)) /\ api_answers w' = rest /\ length (sent w') = S (length (sent w)).
Proof.
  intros Ha Hs Hj Hsh Hid Hv.
  unfold _meli_get_shipment_id_from_order, try_except, bind at 1 2.
  rewrite (RequestProps.meli_request_plain w _ _ _ _ r rest Ha) by (rewrite Hs; reflexivity).
  rewrite Hs. cbn -[_meli_get_user_id _meli_get_shipment_id_from_pack py_str].
  unfold resp_json. rewrite Hj.
  cbn -[_meli_get_user_id _meli_get_shipment_id_from_pack py_str].
  rewrite py_or_empty_obj, get_obj, Hsh, py_or_empty_obj, get_obj, Hid, Hv.
  repeat split; reflexivity.
Qed.

Definition order_with_shipping_and_pack : json :=
  JObj [("id", JNum 2000001); ("shipping", JObj [("id", JNum 4001)]); ("pack_id", JNum 3001)].

Definition world_order : World :=
  mkWorld store0 None true [Some (mkResponse 200 [] (Some order_with_shipping_and_pack))]
          [] [] [] 0.

Lemma shipment_id_from_order_shipping_first_witness :
  fst (_meli_get_shipment_id_from_order "2000001" world_order) = Ok (Some "4001").
Proof.
  pose proof (shipment_id_from_order_shipping_first "2000001" world_order
                (mkResponse 200 [] (Some order_with_shipping_and_pack)) []
                [("id", JNum 2000001); ("shipping", JObj [("id", JNum 4001)]); ("pack_id", JNum 3001)]
                [("id", JNum 4001)] (JNum 4001)
                eq_refl eq_refl eq_refl eq_refl eq_refl eq_refl) as H.
  destruct (_meli_get_shipment_id_from_order "2000001" world_order) as [res w'].
  cbn. rewrite (proj1 H). reflexivity.
Defined.

(** X11: when the pack answer (a 200 dict) has a truthy [shipment.id],
    that id is the result after one request; the shipment search is not
    queried. *)
Theorem shipment_id_from_pack_direct (pid : string) (seller : json) (w : World) (r : Response)
    (rest : list (option Response)) (d s : list (string * json)) (v : json) :
  api_answers w = Some r :: rest ->
  status_code r = 200%Z ->
  json_body r = Some (JObj d) ->
  lookup "shipment" d = Some (JObj s) ->
  lookup "id" s = Some v -> truthy v = true ->
  let (res, w') := _meli_get_shipment_id_from_pack pid seller w in
  res = Ok (Some (py_str v)) /\ api_answers w' = rest /\ length (sent w') = S (length (sent w)).
Proof.
  intros Ha Hs Hj Hsh Hid Hv.
  unfold _meli_get_shipment_id_from_pack, try_except, bind at 1 2.
  rewrite (RequestProps.meli_request_plain w _ _ _ _ r rest Ha) by (rewrite Hs; reflexivity).
  rewrite Hs. cbn -[_meli_request py_str].
  unfold resp_json. rewrite Hj. cbn -[_meli_request py_str].
  rewrite py_or_empty_obj, get_obj, Hsh, py_or_empty_obj, get_obj, Hid, Hv.
  repeat split; reflexivity.
Qed.

Definition pack_answer : json := JObj [("id", JNum 3001); ("shipment", JObj [("id", JStr "4001")])].

Definition world_pack : World :=
  mkWorld store0 None true [Some (mkResponse 200 [] (Some pack_answer))] [] [] [] 0.

Lemma shipment_id_from_pack_direct_witness :
  fst (_meli_get_shipment_id_from_pack "3001" JNull world_pack) = Ok (Some "4001").
Proof.
  pose proof (shipment_id_from_pack_direct "3001" JNull world_pack
                (mkResponse 200 [] (Some pack_answer)) []
                [("id", JNum 3001); ("shipment", JObj [("id", JStr "4001")])]
                [("id", JStr "4001")] (JStr "4001")
                eq_refl eq_refl eq_refl eq_refl eq_refl eq_refl) as H.
  destruct (_meli_get_shipment_id_from_pack "3001" JNull world_pack) as [res w'].
  cbn. rewrite (proj1 H). reflexivity.
Defined.

(** X12: when the pack request (with its refresh and retry on a 401 / 403)
    raises or answers anything but a 200, the shipment search is queried
    with [pack] and, when the seller id is truthy, [seller]; the [id] of its
    first result is the result. *)
Theorem shipment_id_from_pack_search (pid : string) (seller : json) (w w1 : World)
    (r2 : Response) (rest : list (option Response)) (d x : list (string * json))
    (xs : list json) (v : json) :
  ((exists e, _meli_request "GET" ("/packs/" ++ pid) [] [] w = (Raise e, w1)) \/
   (exists r1, _meli_request "GET" ("/packs/" ++ pid) [] [] w = (Ok r1, w1) /\
               status_code r1 <> 200%Z)) ->
  api_answers w1 = Some r2 :: rest ->
  status_code r2 = 200%Z ->
  json_body r2 = Some (JObj d) ->
  lookup "results" d = Some (JArr (JObj x :: xs)) ->
  lookup "id" x = Some v -> truthy v = true ->
  let (res, w') := _meli_get_shipment_id_from_pack pid seller w in
  res = Ok (Some (py_str v)) /\ api_answers w' = rest /\
  exists rq, sent w' = rq :: sent w1 /\
    rq_url rq = _full_url "/shipments/search" /\
    rq_params rq = ([("pack", pid)] ++ seller_param seller)%list.
Proof.
  intros Hpack Ha Hs Hj Hres Hid Hv.
  assert (Hfirst : try_except
            (r <-- _meli_request "GET" ("/packs/" ++ pid) [] [] ;;;
             if Z.eqb (status_code r) 200 then
               d <-- lift (resp_json r) ;;;
               sh0 <-- lift (get (py_or d (JObj [])) "shipment") ;;;
               sh <-- lift (get (py_or sh0 (JObj [])) "id") ;;;
               if truthy sh then ret (Some (py_str sh)) else ret None
             else ret None)
            (ret None) w = (Ok None, w1)).
  { unfold try_except, bind at 1.
    destruct Hpack as [[e He] | [r1 [Hr1 Hn]]]; rewrite ?He, ?Hr1; [reflexivity|].
    replace (Z.eqb (status_code r1) 200) with false by (symmetry; apply Z.eqb_neq; exact Hn).
    reflexivity. }
  unfold _meli_get_shipment_id_from_pack, bind at 1. rewrite Hfirst.
  cbn -[_meli_request py_str seller_param].
  unfold try_except, bind.
  rewrite (RequestProps.meli_request_plain _ "GET" "/shipments/search" _ _ r2 rest);
    [| exact Ha | rewrite Hs; reflexivity].
  rewrite Hs. cbn -[_meli_request py_str seller_param].
  unfold resp_json. rewrite Hj. cbn -[_meli_request py_str seller_param].
  rewrite py_or_empty_obj, get_obj, Hres. cbn -[_meli_request py_str seller_param].
  rewrite Hid, Hv. cbn -[py_str seller_param]. rewrite Hv.
  split; [reflexivity|]. split; [reflexivity|].
  eexists. split; [reflexivity|]. split; reflexivity.
Qed.

Definition search_answer : json :=
  JObj [("results", JArr [JObj [("id", JNum 4001)]])].

(** The pack answer is a 403 and the store has no client secret, so no
    refresh is tried and the 403 reaches the pack lookup. *)
Definition store_no_secret : TokenStore :=
  mkTokenStore (JStr "app") JNull (JStr "A0") (JStr "R0").

Definition world_pack_search : World :=
  mkWorld store_no_secret None true
    [Some (mkResponse 403 [] None); Some (mkResponse 200 [] (Some search_answer))] [] [] [] 0.

Lemma shipment_id_from_pack_search_witness :
  fst (_meli_get_shipment_id_from_pack "3001" (JNum 77) world_pack_search) = Ok (Some "4001").
Proof.
  set (w1 := snd (_meli_request "GET" ("/packs/" ++ "3001") [] [] world_pack_search)).
  assert (H1 : _meli_request "GET" ("/packs/" ++ "3001") [] [] world_pack_search
               = (Ok (mkResponse 403 [] None), w1)) by (vm_compute; reflexivity).
  assert (H2 : api_answers w1 = [Some (mkResponse 200 [] (Some search_answer))])
    by (vm_compute; reflexivity).
  assert (H3 : status_code (mkResponse 403 [] None) <> 200%Z) by discriminate.
  pose proof (shipment_id_from_pack_search "3001" (JNum 77) world_pack_search w1
                (mkResponse 200 [] (Some search_answer)) []
                [("results", JArr [JObj [("id", JNum 4001)]])] [("id", JNum 4001)] [] (JNum 4001)
                (or_intror (ex_intro _ (mkResponse 403 [] None) (conj H1 H3))) H2
                eq_refl eq_refl eq_refl eq_refl eq_refl) as H.
  revert H.
  destruct (_meli_get_shipment_id_from_pack "3001" (JNum 77) world_pack_search) as [res w'].
  intros [-> _]; reflexivity.
Defined.

(** ** Totality and the PDF guarantee *)

Lemma try_ret_ok {A} (m : M A) (a : A) (w : World) :
  exists v, fst (try_except m (ret a) w) = Ok v.
Proof. unfold try_except, ret. destruct (m w) as [[x|e] w']; cbn; eauto. Qed.

Lemma bind_ok {A B} (m : M A) (k : A -> M B) :
  (forall w, exists v, fst (m w) = Ok v) ->
  (forall a w, exists v, fst (k a w) = Ok v) ->
  forall w, exists v, fst (bind m k w) = Ok v.
Proof.
  intros Hm Hk w. unfold bind. destruct (Hm w) as [v Hv].
  destruct (m w) as [r w']. cbn in Hv. subst r. apply Hk.
Qed.

(** A request that raised, answered anything but a 200, or answered a
    body that is not JSON. *)
Definition request_failed (m : M Response) (w : World) : Prop :=
  match fst (m w) with
  | Raise _ => True
  | Ok r => status_code r <> 200%Z \/ json_body r = None
  end.

(** X13: the lookup helpers never raise; the user id and the shipment are
    [None] when their request raised, answered anything but a 200 or
    answered a body that is not JSON; [_meli_ready_to_ship] is [True]
    exactly when its request answered a 200, and [url_disponible] exactly
    when the HEAD request got an answer with a status below 400. *)
Theorem meli_lookups_never_raise (w : World) :
  (exists v, fst (_meli_get_user_id w) = Ok v) /\
  (forall pid seller, exists v, fst (_meli_get_shipment_id_from_pack pid seller w) = Ok v) /\
  (forall oid, exists v, fst (_meli_get_shipment_id_from_order oid w) = Ok v) /\
  (forall sid, exists v, fst (_meli_get_shipment sid w) = Ok v) /\
  (forall sid, exists b, fst (_meli_ready_to_ship sid w) = Ok b) /\
  (forall url, exists b, fst (url_disponible url w) = Ok b) /\
  (request_failed (_meli_request "GET" "/users/me" [] []) w ->
   fst (_meli_get_user_id w) = Ok JNull) /\
  (forall sid, request_failed (_meli_request "GET" ("/shipments/" ++ sid) []
                                 [("x-format-new", "true")]) w ->
   fst (_meli_get_shipment sid w) = Ok None) /\
  (forall sid, fst (_meli_ready_to_ship sid w) = Ok true <->
   exists r, fst (_meli_request "POST" ("/shipments/" ++ sid ++ "/process/ready_to_ship") [] [] w)
             = Ok r /\ status_code r = 200%Z) /\
  (forall url, fst (url_disponible url w) = Ok true <->
   exists r rest, api_answers w = Some r :: rest /\ (status_code r < 400)%Z).
Proof.
  split; [apply try_ret_ok|].
  split.
  { intros. revert w. apply bind_ok; [intros; apply try_ret_ok|].
    intros [sid|] w'; [cbn; eauto|apply try_ret_ok]. }
  split.
  { intros. revert w. apply bind_ok; [intros; apply try_ret_ok|].
    intros [sid|] w'; [cbn; eauto|apply try_ret_ok]. }
  split; [intros; apply try_ret_ok|]. split; [intros; apply try_ret_ok|].
  split; [intros; apply try_ret_ok|].
  split.
  { unfold request_failed, _meli_get_user_id, try_except, bind.
    destruct (_meli_request "GET" "/users/me" [] [] w) as [[r|e] w'].
    - cbn [fst]. intros [Hs|Hj].
      + replace (Z.eqb (status_code r) 200) with false by (symmetry; apply Z.eqb_neq; exact Hs).
        reflexivity.
      + destruct (Z.eqb (status_code r) 200); [|reflexivity].
        unfold lift, resp_json. rewrite Hj. reflexivity.
    - intros _. reflexivity. }
  split.
  { intros sid. unfold request_failed, _meli_get_shipment, try_except, bind.
    destruct (_meli_request "GET" ("/shipments/" ++ sid) [] [("x-format-new", "true")] w)
      as [[r|e] w'].
    - cbn [fst]. intros [Hs|Hj].
      + replace (Z.eqb (status_code r) 200) with false by (symmetry; apply Z.eqb_neq; exact Hs).
        reflexivity.
      + destruct (Z.eqb (status_code r) 200); [|reflexivity].
        unfold lift, resp_json. rewrite Hj. reflexivity.
    - intros _. reflexivity. }
  split.
  { intros sid. unfold _meli_ready_to_ship, try_except, bind, ret.
    destruct (_meli_request "POST" _ [] [] w) as [[r|e] w']; cbn [fst].
    - split.
      + intros H. injection H as H. apply Z.eqb_eq in H. eauto.
      + intros [r' [H Hs]]. injection H as <-. rewrite Hs. reflexivity.
    - split; [discriminate|]. intros [r' [H _]]. discriminate H. }
  { intros url. unfold url_disponible, try_except, bind, ret, requests_request.
    destruct (api_answers w) as [|[r|] rest]; cbn [fst].
    - split; [discriminate|]. intros [r [rest [H _]]]. discriminate H.
    - split.
      + intros H. injection H as H. apply Z.ltb_lt in H. eauto.
      + intros [r' [rest' [H Hs]]]. injection H as <- _. apply Z.ltb_lt in Hs. rewrite Hs.
        reflexivity.
    - split; [discriminate|]. intros [r [rest' [H _]]]. discriminate H. }
Qed.

(** [m] hands out only bytes that begin with [%PDF]. *)
Definition pdf_only (m : M (option bytes)) : Prop :=
  forall w b, fst (m w) = Ok (Some b) -> firstn 4 b = PDF_MAGIC.

Lemma pdf_only_none : pdf_only (ret None).
Proof. intros w b H. discriminate H. Qed.

Lemma pdf_only_bind {A} (m : M A) (k : A -> M (option bytes)) :
  (forall a, pdf_only (k a)) -> pdf_only (bind m k).
Proof.
  intros Hk w b. unfold bind. destruct (m w) as [[a|e] w']; [apply Hk|discriminate].
Qed.

(** [x = m; if x: return x] followed by [k] *)
Lemma pdf_only_first (m k : M (option bytes)) :
  pdf_only m -> pdf_only k ->
  pdf_only (bind m (fun x => match x with Some pdf => ret (Some pdf) | None => k end)).
Proof.
  intros Hm Hk w b. unfold bind. specialize (Hm w b).
  destruct (m w) as [[[pdf|]|e] w']; [exact Hm|apply Hk|discriminate].
Qed.

Lemma pdf_only_try (m h : M (option bytes)) :
  pdf_only m -> pdf_only h -> pdf_only (try_except m h).
Proof.
  intros Hm Hh w b. unfold try_except. specialize (Hm w b).
  destruct (m w) as [[a|e] w']; [exact Hm|apply Hh].
Qed.

Lemma pdf_only_checked (r : Response) :
  pdf_only (if bytes_eqb (firstn 4 (content r)) PDF_MAGIC then ret (Some (content r)) else ret None).
Proof.
  destruct (bytes_eqb (firstn 4 (content r)) PDF_MAGIC) eqn:E; [|apply pdf_only_none].
  intros w b H. injection H as <-. apply bytes_eqb_eq. exact E.
Qed.

Lemma pdf_only_download (sid : string) : pdf_only (_meli_download_label_pdf sid).
Proof.
  unfold _meli_download_label_pdf. apply pdf_only_bind. intros [sh|]; [|apply pdf_only_none].
  destruct (negb (truthy sh)); [apply pdf_only_none|].
  apply pdf_only_bind. intros [reason|]; [apply pdf_only_none|].
  apply pdf_only_try; [|apply pdf_only_none].
  apply pdf_only_bind. intros r.
  destruct (Z.eqb (status_code r) 200); [apply pdf_only_checked|apply pdf_only_none].
Qed.

Lemma pdf_only_label_for (sid : option string) : pdf_only (label_for sid).
Proof.
  unfold label_for. destruct sid as [s|]; [|apply pdf_only_none].
  destruct (String.eqb s ""); [apply pdf_only_none|].
  intros w b. unfold bind. pose proof (pdf_only_download s w) as H.
  destruct (_meli_download_label_pdf s w) as [[[[|x b']|]|e] w']; unfold ret; cbn [fst];
    try discriminate.
  intros Hb. injection Hb as <-. exact (H _ eq_refl).
Qed.

(** X14: [descargar_etiqueta_por_order_o_pack] hands out only bytes that
    begin with [%PDF], on every path (pack, order and URL fallback). *)
Theorem descargar_pdf_only (order_id pack_id url : option string) (w : World) (b : bytes) :
  fst (descargar_etiqueta_por_order_o_pack order_id pack_id url w) = Ok (Some b) ->
  firstn 4 b = PDF_MAGIC.
Proof.
  revert w b. unfold descargar_etiqueta_por_order_o_pack.
  apply pdf_only_first.
  { destruct pack_id as [p|]; [|apply pdf_only_none].
    destruct (String.eqb p ""); [apply pdf_only_none|].
    apply pdf_only_bind. intros seller_id. apply pdf_only_bind. intros sid.
    apply pdf_only_label_for. }
  apply pdf_only_first.
  { destruct order_id as [o|]; [|apply pdf_only_none].
    destruct (String.eqb o ""); [apply pdf_only_none|].
    apply pdf_only_bind. intros sid. apply pdf_only_label_for. }
  destruct url as [u|]; [|apply pdf_only_none].
  destruct (String.eqb u ""); [apply pdf_only_none|].
  apply pdf_only_bind. intros [|]; [|apply pdf_only_none].
  apply pdf_only_try; [|apply pdf_only_none].
  apply pdf_only_bind. intros r. apply pdf_only_checked.
Qed.

Definition pdf_file : bytes := (PDF_MAGIC ++ [Byte.x2d; Byte.x31; Byte.x2e; Byte.x37])%list.

Definition world_url_fallback : World :=
  mkWorld store0 None true
    [Some (mkResponse 200 [] None); Some (mkResponse 200 pdf_file None)] [] [] [] 0.

Lemma descargar_pdf_only_witness :
  fst (descargar_etiqueta_por_order_o_pack None None (Some "https://files.example/label.pdf")
         world_url_fallback) = Ok (Some pdf_file) /\
  firstn 4 pdf_file = PDF_MAGIC.
Proof.
  split; [vm_compute; reflexivity|].
  apply (descargar_pdf_only None None (Some "https://files.example/label.pdf") world_url_fallback).
  vm_compute. reflexivity.
Defined.

End LookupProps.

(* ================================================================== *)
(** * Further properties of [streamlit_app.py] *)

Module AppProps.
Import App.

(** ** Order notes *)

Lemma digits_rev_nonempty (f : nat) (n : N) : digits_rev (S f) n <> [].
Proof. cbn. destruct (N.ltb n 10); discriminate. Qed.

Lemma string_of_list_ascii_nonempty (l : list ascii) :
  l <> [] -> string_of_list_ascii l <> "".
Proof. destruct l; [contradiction|discriminate]. Qed.

Lemma str_of_Z_nonempty (z : Z) : str_of_Z z <> "".
Proof.
  destruct z; cbn [str_of_Z]; try discriminate;
    unfold str_of_N; apply string_of_list_ascii_nonempty;
    intros H; apply (f_equal (@rev ascii)) in H; rewrite rev_involutive in H;
    exact (digits_rev_nonempty _ _ H).
Qed.

(** [str(v)] of a truthy value is never empty. *)
Lemma py_str_truthy_nonempty (v : json) : truthy v = true -> py_str v <> "".
Proof.
  destruct v as [|[]|z|s|l|l]; cbn; intros H; try discriminate.
  - apply str_of_Z_nonempty.
  - intros ->. discriminate.
Qed.

Lemma truthy_singleton (v : json) (s : string) :
  In s (if truthy v then [py_str v] else []) -> s <> "".
Proof.
  destruct (truthy v) eqn:Ht; cbn; [|intros []].
  intros [<-|[]]. apply py_str_truthy_nonempty. exact Ht.
Qed.

Lemma pick_from_result_nonempty (d : list (string * json)) (s : string) :
  In s (pick_from_result d) -> s <> "".
Proof.
  assert (Hk : In s (flat_map (fun k => match lookup k d with
                                        | Some v => if truthy v then [py_str v] else []
                                        | None => []
                                        end) ["text"; "plain_text"; "description"; "message"]) ->
               s <> "").
  { intros H. apply in_flat_map in H as [k [_ Hk]].
    destruct (lookup k d) as [v|]; [exact (truthy_singleton v s Hk)|destruct Hk]. }
  unfold pick_from_result. destruct (lookup "note" d) as [v|]; [|exact Hk].
  destruct (truthy v) eqn:Ht; [|exact Hk].
  intros [<-|[]]. apply py_str_truthy_nonempty. exact Ht.
Qed.

Lemma pick_dict_nonempty (d : list (string * json)) (s : string) :
  In s (pick_dict d) -> s <> "".
Proof.
  unfold pick_dict.
  destruct (lookup "results" d) as [[| | | |rs|]|]; try apply pick_from_result_nonempty.
  unfold pick_results. intros H. apply in_flat_map in H as [r [_ Hr]].
  destruct r; try destruct Hr. exact (pick_from_result_nonempty _ _ Hr).
Qed.

(** X15: every text [_extract_notes_list] returns is non-empty, whatever
    the shape of the payload. *)
Theorem extract_notes_nonempty (payload : json) (s : string) :
  In s (_extract_notes_list payload) -> s <> "".
Proof.
  destruct payload as [| | | |entries|d]; cbn [_extract_notes_list]; try (intros []).
  - intros H. apply in_flat_map in H as [e [_ He]].
    destruct e as [| | | | |d]; try exact (pick_dict_nonempty _ _ He);
      revert He; apply truthy_singleton.
  - apply pick_dict_nonempty.
Qed.

Lemma extract_notes_nonempty_witness :
  In "FBC123" (_extract_notes_list (JArr [JStr "FBC123"])) /\ "FBC123" <> "".
Proof.
  split; [cbn; auto|].
  apply (extract_notes_nonempty (JArr [JStr "FBC123"])). cbn. auto.
Defined.

(** X16: the notes of a list answer are those of its entries, in order
    (so splitting the list splits the notes), and a dict answer gives the
    same notes as the one-element list holding it. *)
Theorem extract_notes_list_compose (l1 l2 : list json) (d : list (string * json)) :
  _extract_notes_list (JArr (l1 ++ l2)) =
    (_extract_notes_list (JArr l1) ++ _extract_notes_list (JArr l2))%list /\
  _extract_notes_list (JArr [JObj d]) = _extract_notes_list (JObj d).
Proof.
  split.
  - cbn [_extract_notes_list]. apply flat_map_app.
  - cbn [_extract_notes_list flat_map]. apply app_nil_r.
Qed.

(** ** Writing the order note *)

(** X17: when the notes GET raises, is not a 200 or is not JSON, the note
    is created: a POST to [/orders/{order_id}/notes] carrying
    [{"note": note_text}]. *)
Theorem upsert_note_creates_when_lookup_fails (o txt tok : string) (g wr : option Response) :
  (g = None \/ exists r, g = Some r /\ (status_code r <> 200%Z \/ json_body r = None)) ->
  let rq := fst (upsert_order_note o txt tok g wr) in
  nr_method rq = "POST" /\ nr_url rq = ORDERS_URL ++ o ++ "/notes" /\
  nr_json rq = JObj [("note", JStr txt)].
Proof.
  intros Hg. unfold upsert_order_note.
  assert (Hn : found_note_id g = JNull).
  { unfold found_note_id. destruct Hg as [->|[r [-> [Hs|Hj]]]]; [reflexivity| |].
    - replace (Z.eqb (status_code r) 200) with false by (symmetry; apply Z.eqb_neq; exact Hs).
      reflexivity.
    - destruct (Z.eqb (status_code r) 200); [|reflexivity].
      unfold resp_json. rewrite Hj. reflexivity. }
  rewrite Hn. cbn. repeat split; reflexivity.
Qed.

Lemma upsert_note_creates_when_lookup_fails_witness :
  nr_method (fst (upsert_order_note "2000001" "FBC123" "T" (Some (mkResponse 404 [] None)) None))
    = "POST".
Proof.
  apply (upsert_note_creates_when_lookup_fails "2000001" "FBC123" "T"
           (Some (mkResponse 404 [] None)) None).
  right. exists (mkResponse 404 [] None). split; [reflexivity|]. left. discriminate.
Defined.

(** X18: when the notes GET answers a 200 dict whose [results] list ends
    with a dict carrying a truthy [id], the note is updated: a PUT to
    [/orders/{order_id}/notes/{id}]. *)
Theorem upsert_note_updates_existing (o txt tok : string) (r : Response) (wr : option Response)
    (d l : list (string * json)) (rs : list json) (v : json) :
  status_code r = 200%Z ->
  json_body r = Some (JObj d) ->
  lookup "results" d = Some (JArr rs) -> rs <> [] ->
  last rs JNull = JObj l ->
  lookup "id" l = Some v -> truthy v = true ->
  let rq := fst (upsert_order_note o txt tok (Some r) wr) in
  nr_method rq = "PUT" /\ nr_url rq = ORDERS_URL ++ o ++ "/notes/" ++ py_str v /\
  nr_json rq = JObj [("note", JStr txt)].
Proof.
  intros Hs Hj Hr Hne Hl Hid Hv.
  assert (Hn : found_note_id (Some r) = v).
  { unfold found_note_id. rewrite Hs. cbn [Z.eqb Pos.eqb]. unfold resp_json. rewrite Hj.
    unfold results_note_id. rewrite py_or_empty_obj, get_obj, Hr. cbn [res_bind].
    destruct rs as [|x rs']; [contradiction|]. cbn [py_or truthy py_last res_bind].
    rewrite Hl, get_obj, Hid. cbn [res_bind]. rewrite Hv. reflexivity. }
  unfold upsert_order_note. rewrite Hn, Hv. cbn. repeat split; reflexivity.
Qed.

Definition notes_answer : json :=
  JObj [("results", JArr [JObj [("id", JNum 11); ("note", JStr "OLD")];
                          JObj [("id", JNum 12); ("note", JStr "FBC9")]])].

Lemma upsert_note_updates_existing_witness :
  nr_url (fst (upsert_order_note "2000001" "FBC123" "T"
                 (Some (mkResponse 200 [] (Some notes_answer))) None))
    = ORDERS_URL ++ "2000001" ++ "/notes/" ++ "12".
Proof.
  apply (upsert_note_updates_existing "2000001" "FBC123" "T"
           (mkResponse 200 [] (Some notes_answer)) None
           [("results", JArr [JObj [("id", JNum 11); ("note", JStr "OLD")];
                              JObj [("id", JNum 12); ("note", JStr "FBC9")]])]
           [("id", JNum 12); ("note", JStr "FBC9")]
           [JObj [("id", JNum 11); ("note", JStr "OLD")]; JObj [("id", JNum 12); ("note", JStr "FBC9")]]
           (JNum 12)); try reflexivity. discriminate.
Defined.

(** An entry on which the loop body raises ends [notes_scan]: what
    follows it is never read. *)
Lemma notes_scan_stops (pre xs : list json) (x n : json) :
  (forall m, exists e, results_note_id x m = Raise e) ->
  notes_scan (pre ++ x :: xs) n = notes_scan pre n.
Proof.
  intros Hx. revert n. induction pre as [|y pre IH]; intros n; cbn [app notes_scan].
  - destruct (Hx n) as [e ->]. reflexivity.
  - destruct (results_note_id y n); [apply IH|reflexivity].
Qed.

(** A truthy entry that is not a dict makes the loop body raise:
    [(entry or {}).get] is an [AttributeError]. *)
Lemma results_note_id_raises (x : json) :
  truthy x = true -> (forall f, x <> JObj f) ->
  forall m, exists e, results_note_id x m = Raise e.
Proof.
  intros Hx Hxd m. unfold results_note_id. rewrite (RequestProps.py_or_truthy _ _ Hx).
  destruct x as [| | | | |f]; try (eexists; reflexivity). exfalso. exact (Hxd f eq_refl).
Qed.

(** X19: in a list answer, an entry that makes the loop raise (a truthy
    value that is not a dict), wherever it stands, ends the loop but keeps
    the note id the entries before it produced: when that id is truthy the
    note is still updated with it, whatever follows the bad entry. *)
Theorem upsert_note_keeps_id_before_bad_entry (o txt tok : string) (r : Response)
    (wr : option Response) (pre xs : list json) (x : json) :
  status_code r = 200%Z ->
  json_body r = Some (JArr (pre ++ x :: xs)) ->
  truthy (notes_scan pre JNull) = true ->
  truthy x = true -> (forall f, x <> JObj f) ->
  let rq := fst (upsert_order_note o txt tok (Some r) wr) in
  nr_method rq = "PUT" /\
  nr_url rq = ORDERS_URL ++ o ++ "/notes/" ++ py_str (notes_scan pre JNull).
Proof.
  intros Hs Hj Hv Hx Hxd.
  assert (Hn : found_note_id (Some r) = notes_scan pre JNull).
  { unfold found_note_id. rewrite Hs. cbn [Z.eqb Pos.eqb]. unfold resp_json. rewrite Hj.
    apply notes_scan_stops, results_note_id_raises; assumption. }
  unfold upsert_order_note. rewrite Hn, Hv. cbn. split; reflexivity.
Qed.

(** Two entries with ids 12 and 34, a malformed entry, then an entry with
    id 99 that is never read. *)
Definition notes_answer_pre : list json :=
  [JObj [("results", JArr [JObj [("id", JNum 12)]])];
   JObj [("results", JArr [JObj [("note_id", JNum 34)]])]].

Definition notes_answer_list : json :=
  JArr (notes_answer_pre ++ JStr "garbage" :: [JObj [("results", JArr [JObj [("id", JNum 99)]])]]).

Lemma upsert_note_keeps_id_before_bad_entry_witness :
  let rq := fst (upsert_order_note "2000001" "FBC123" "T"
                   (Some (mkResponse 200 [] (Some notes_answer_list))) None) in
  nr_method rq = "PUT" /\ nr_url rq = ORDERS_URL ++ "2000001" ++ "/notes/" ++ "34".
Proof.
  exact (upsert_note_keeps_id_before_bad_entry "2000001" "FBC123" "T"
           (mkResponse 200 [] (Some notes_answer_list)) None
           notes_answer_pre [JObj [("results", JArr [JObj [("id", JNum 99)]])]] (JStr "garbage")
           eq_refl eq_refl eq_refl eq_refl ltac:(discriminate)).
Defined.

(** X20: the write carries [Authorization: Bearer <token>] and
    [Content-Type: application/json], and [upsert_order_note] reports
    success exactly when the PUT / POST answers 200 or 201. *)
Theorem upsert_note_result (o txt tok : string) (g wr : option Response) :
  nr_headers (fst (upsert_order_note o txt tok g wr)) =
    [("Authorization", "Bearer " ++ tok); ("Content-Type", "application/json")] /\
  (fst (snd (upsert_order_note o txt tok g wr)) = true <->
   exists r, wr = Some r /\ (status_code r = 200%Z \/ status_code r = 201%Z)).
Proof.
  assert (Hans : forall verb msg,
    fst (match wr with
         | None => (false, "Error de red: " ++ exc_str RequestException)
         | Some r =>
           if Z.eqb (status_code r) 200 || Z.eqb (status_code r) 201 then (true, msg)
           else (false, verb ++ " " ++ str_of_Z (status_code r) ++ ": "
                        ++ substring 0 200 (text_of (content r)))
         end) = true <->
    exists r, wr = Some r /\ (status_code r = 200%Z \/ status_code r = 201%Z)).
  { intros verb msg. destruct wr as [r|].
    - split.
      + intros H.
        destruct (Z.eqb (status_code r) 200 || Z.eqb (status_code r) 201) eqn:E; [|discriminate H].
        exists r. split; [reflexivity|].
        apply orb_true_iff in E as [E|E]; apply Z.eqb_eq in E; auto.
      + intros [r' [Hr [Hs|Hs]]]; injection Hr as <-; rewrite Hs; reflexivity.
    - cbn. split; [discriminate|]. intros [r [H _]]. discriminate. }
  unfold upsert_order_note. destruct (truthy (found_note_id g)); split; try reflexivity.
  - exact (Hans "PUT" "Nota actualizada correctamente.").
  - exact (Hans "POST" "Nota creada correctamente.").
Qed.

(** ** Scans *)

(** One key of a patch: the key is set, the other keys keep their value. *)
Lemma lookup_apply_patch1 (kv : string * json) (r : Row) (c : string) :
  lookup c (apply_patch [kv] r) =
    if String.eqb c (fst kv) then Some (snd kv) else lookup c r.
Proof.
  destruct kv as [k v]. unfold apply_patch. cbn [fold_left fst snd].
  induction r as [|[k' v'] r IH]; [reflexivity|].
  cbn [fst]. destruct (String.eqb k k') eqn:Ekk'.
  - apply String.eqb_eq in Ekk'. subst k'. cbn [lookup].
    destruct (String.eqb c k); reflexivity.
  - cbn [lookup]. rewrite IH.
    destruct (String.eqb c k') eqn:Eck'; [|reflexivity].
    apply String.eqb_eq in Eck'. subst c.
    destruct (String.eqb k' k) eqn:E; [|reflexivity].
    apply String.eqb_eq in E. subst. rewrite String.eqb_refl in Ekk'. discriminate.
Qed.

Lemma apply_patch_cons (kv : string * json) (p : Row) (r : Row) :
  apply_patch (kv :: p) r = apply_patch p (apply_patch [kv] r).
Proof. reflexivity. Qed.

Lemma col_ingreso_patch (t : string) (r : Row) (c : string) :
  col (apply_patch [("fecha_ingreso", JStr t);
                    ("estado_escaneo", JStr "INGRESADO CORRECTAMENTE!")] r) c =
    if String.eqb c "estado_escaneo" then JStr "INGRESADO CORRECTAMENTE!"
    else if String.eqb c "fecha_ingreso" then JStr t else col r c.
Proof.
  unfold col. rewrite apply_patch_cons, !lookup_apply_patch1. cbn [fst snd].
  destruct (String.eqb c "estado_escaneo"); [reflexivity|].
  destruct (String.eqb c "fecha_ingreso"); reflexivity.
Qed.

(** X21: on the [ingresar] page, a scan of a known code writes one update
    keyed by [guia]: the rows with that [guia] get [fecha_ingreso] = now and
    [estado_escaneo] = ["INGRESADO CORRECTAMENTE!"], their other columns and
    every other row are unchanged, and no row is added. *)
Theorem scan_ingresar_updates_matching (env : ScanEnv) (g : string) (w : AppWorld) (m : Row) :
  page w = "ingresar" -> strip g <> "" ->
  lookup_by_guia (strip g) w = Some m -> m <> [] ->
  let w' := process_scan env g w in
  db_log w' = DbUpdate "guia" (JStr (strip g))
                [("fecha_ingreso", JStr (now w));
                 ("estado_escaneo", JStr "INGRESADO CORRECTAMENTE!")] :: db_log w /\
  length (db w') = length (db w) /\
  (forall i r, nth_error (db w) i = Some r ->
     exists r', nth_error (db w') i = Some r' /\
       (if eq_val (col r "guia") (JStr (strip g)) then
          col r' "fecha_ingreso" = JStr (now w) /\
          col r' "estado_escaneo" = JStr "INGRESADO CORRECTAMENTE!" /\
          (forall c, c <> "fecha_ingreso" -> c <> "estado_escaneo" -> col r' c = col r c)
        else r' = r)).
Proof.
  intros Hp Hg Hl Hm. unfold process_scan.
  destruct (String.eqb (strip g) "") eqn:E; [apply String.eqb_eq in E; contradiction|].
  rewrite Hl. destruct m as [|x m']; [contradiction|]. rewrite Hp. cbn [String.eqb Ascii.eqb Bool.eqb].
  unfold toast, emit, update_ingreso, db_update_eq. cbn [db db_log now].
  split; [reflexivity|]. split; [apply length_map|].
  intros i r Hr. rewrite nth_error_map, Hr. cbn [option_map].
  eexists. split; [reflexivity|].
  destruct (eq_val (col r "guia") (JStr (strip g))); [|reflexivity].
  split; [rewrite col_ingreso_patch; reflexivity|].
  split; [rewrite col_ingreso_patch; reflexivity|].
  intros c H1 H2. rewrite col_ingreso_patch.
  destruct (String.eqb c "estado_escaneo") eqn:E1; [apply String.eqb_eq in E1; contradiction|].
  destruct (String.eqb c "fecha_ingreso") eqn:E2; [apply String.eqb_eq in E2; contradiction|].
  reflexivity.
Qed.

Definition row_a : Row := [("id", JNum 1); ("guia", JStr "G1"); ("estado_escaneo", JStr "")].
Definition row_b : Row := [("id", JNum 2); ("guia", JStr "G2"); ("estado_escaneo", JStr "")].

Definition world_ingresar : AppWorld :=
  mkAppWorld [row_a; row_b] 3 [] [] "ingresar" JNull "2026-01-01T10:00:00".

Definition env_offline : ScanEnv := mkScanEnv None None None None None false None.

Lemma scan_ingresar_updates_matching_witness :
  length (db (process_scan env_offline " G1 " world_ingresar)) = 2.
Proof.
  apply (scan_ingresar_updates_matching env_offline " G1 " world_ingresar row_a);
    [reflexivity|vm_compute; discriminate|vm_compute; reflexivity|discriminate].
Defined.

(** X22: on the [ingresar] page, scanning the same unknown code twice
    inserts one [NO COINCIDENTE!] record: the second scan finds it and only
    updates it. *)
Theorem scan_unknown_twice_inserts_once (env : ScanEnv) (g : string) (w : AppWorld) :
  page w = "ingresar" -> strip g <> "" ->
  db_select_eq "guia" (JStr (strip g)) w = [] ->
  db_log (process_scan env g (process_scan env g w)) =
    DbUpdate "guia" (JStr (strip g))
      [("fecha_ingreso", JStr (now w)); ("estado_escaneo", JStr "INGRESADO CORRECTAMENTE!")]
    :: DbInsert (no_coincidente_row (strip g) (now w)) :: db_log w.
Proof.
  intros Hp Hg Hs.
  unfold process_scan at 2.
  destruct (String.eqb (strip g) "") eqn:E; [apply String.eqb_eq in E; contradiction|].
  unfold lookup_by_guia at 1. rewrite Hs.
  unfold process_scan.
  rewrite E.
  unfold lookup_by_guia, db_select_eq at 1. unfold toast, emit, insert_no_coincidente, db_insert.
  cbn [db page now db_log]. rewrite filter_app.
  unfold db_select_eq in Hs. rewrite Hs. cbn [filter app].
  replace (eq_val (col (("id", JNum (next_id w)) :: no_coincidente_row (strip g) (now w)) "guia")
                  (JStr (strip g))) with true
    by (cbn; symmetry; apply String.eqb_refl).
  rewrite Hp. reflexivity.
Qed.

Lemma scan_unknown_twice_inserts_once_witness :
  db_log (process_scan env_offline "G9" (process_scan env_offline "G9" world_ingresar)) =
    DbUpdate "guia" (JStr "G9")
      [("fecha_ingreso", JStr "2026-01-01T10:00:00");
       ("estado_escaneo", JStr "INGRESADO CORRECTAMENTE!")]
    :: DbInsert (no_coincidente_row "G9" "2026-01-01T10:00:00") :: [].
Proof.
  apply (scan_unknown_twice_inserts_once env_offline "G9" world_ingresar);
    [reflexivity|vm_compute; discriminate|vm_compute; reflexivity].
Defined.

(** X23: on a page other than [ingresar] and [imprimir], a scan of a known
    code does nothing: no write, no message. *)
Theorem scan_other_page_noop (env : ScanEnv) (g : string) (w : AppWorld) (m : Row) :
  page w <> "ingresar" -> page w <> "imprimir" -> strip g <> "" ->
  lookup_by_guia (strip g) w = Some m -> m <> [] ->
  process_scan env g w = w.
Proof.
  intros Hi Hp Hg Hl Hm. unfold process_scan.
  destruct (String.eqb (strip g) "") eqn:E; [apply String.eqb_eq in E; contradiction|].
  rewrite Hl. destruct m as [|x m']; [contradiction|].
  destruct (String.eqb (page w) "ingresar") eqn:E1; [apply String.eqb_eq in E1; contradiction|].
  destruct (String.eqb (page w) "imprimir") eqn:E2; [apply String.eqb_eq in E2; contradiction|].
  reflexivity.
Qed.

Definition world_datos : AppWorld :=
  mkAppWorld [row_a; row_b] 3 [] [] "datos" JNull "2026-01-01T10:00:00".

Lemma scan_other_page_noop_witness :
  process_scan env_offline "G2" world_datos = world_datos.
Proof.
  apply (scan_other_page_noop env_offline "G2" world_datos row_b);
    [discriminate|discriminate|vm_compute; discriminate|vm_compute; reflexivity|discriminate].
Defined.

(** ** Label errors of the app *)

(** X24: a non-PDF answer with status 404 or 429 whose body is a JSON dict
    or not JSON at all yields the fixed hint for that status, whatever the
    body says. *)
Theorem download_label_status_hints (tok sid : string) (r : Response) :
  (json_body r = None \/ exists l, json_body r = Some (JObj l)) ->
  (status_code r = 404%Z ->
   snd (download_label_pdf tok sid (Some r)) = Some "Error 404: 404 not_found: revisa order/pack.") /\
  (status_code r = 429%Z ->
   snd (download_label_pdf tok sid (Some r)) =
     Some "Error 429: 429 local_rate_limited: intenta en unos segundos.").
Proof.
  intros Hj. unfold download_label_pdf.
  split; intros Hs; rewrite Hs; cbn -[firstn py_str contains substring text_of];
    (destruct Hj as [Hj|[l Hj]]; rewrite Hj; reflexivity).
Qed.

Lemma download_label_status_hints_witness :
  snd (download_label_pdf "T" "4001" (Some (mkResponse 429 [] (Some (JObj [("message", JStr "too many")])))))
    = Some "Error 429: 429 local_rate_limited: intenta en unos segundos.".
Proof.
  apply (download_label_status_hints "T" "4001" (mkResponse 429 [] (Some (JObj [("message", JStr "too many")])))).
  - right. eexists. reflexivity.
  - reflexivity.
Defined.

(** ** Re-running the order sync *)

(** A record of the store has [orden_meli] = [o]. *)
Definition has_oid (o : string) (w : AppWorld) : Prop :=
  exists r, In r (db w) /\ eq_val (col r "orden_meli") (JStr o) = true.

Lemma select_oid_has (o : string) (w : AppWorld) :
  db_select_eq "orden_meli" (JStr o) w <> [] <-> has_oid o w.
Proof.
  unfold db_select_eq, has_oid. split.
  - destruct (filter _ (db w)) as [|r rs] eqn:E; [contradiction|]. intros _.
    exists r. apply (filter_In (fun r => eq_val (col r "orden_meli") (JStr o)) r (db w)).
    rewrite E. left. reflexivity.
  - intros [r Hr] E.
    assert (Hf : In r (filter (fun r => eq_val (col r "orden_meli") (JStr o)) (db w)))
      by (apply filter_In; exact Hr).
    rewrite E in Hf. destruct Hf.
Qed.

Lemma lookup_apply_patch_other (p r : Row) (c : string) :
  ~ In c (map fst p) -> lookup c (apply_patch p r) = lookup c r.
Proof.
  revert r. induction p as [|kv p IH]; intros r Hn; [reflexivity|].
  rewrite apply_patch_cons, IH, lookup_apply_patch1.
  - destruct (String.eqb c (fst kv)) eqn:E; [|reflexivity].
    apply String.eqb_eq in E. exfalso. apply Hn. left. symmetry. exact E.
  - intros H. apply Hn. right. exact H.
Qed.

Lemma sync_patch_keeps_orden (row r : Row) :
  col (apply_patch (sync_patch row) r) "orden_meli" = col r "orden_meli".
Proof.
  unfold col. rewrite lookup_apply_patch_other; [reflexivity|].
  unfold sync_patch. rewrite map_map. cbn [map fst].
  intros H. repeat (destruct H as [H|H]; [discriminate H|]). exact H.
Qed.

Lemma sync_upsert_keeps_has (t : string) (notes pics ships : list (string * string))
    (b : Basic) (o : string) (w : AppWorld) :
  has_oid o w -> has_oid o (sync_upsert t notes pics ships b w).
Proof.
  intros [r [Hin Hr]]. unfold sync_upsert.
  destruct (db_select_eq "orden_meli" (JStr (b_oid b)) w) as [|ex exs].
  - exists r. split; [|exact Hr]. unfold db_insert. cbn [db]. apply in_or_app. left. exact Hin.
  - unfold db_update_eq. cbn [db].
    set (row := row_sync t notes pics ships b).
    eexists. split; [apply in_map; exact Hin|].
    destruct (eq_val (col r "id") (col ex "id")); [rewrite sync_patch_keeps_orden|]; exact Hr.
Qed.

Lemma sync_upsert_has (t : string) (notes pics ships : list (string * string))
    (b : Basic) (w : AppWorld) :
  has_oid (b_oid b) (sync_upsert t notes pics ships b w).
Proof.
  destruct (db_select_eq "orden_meli" (JStr (b_oid b)) w) as [|ex exs] eqn:E.
  - unfold sync_upsert. rewrite E. unfold db_insert, has_oid. cbn [db].
    eexists. split; [apply in_or_app; right; left; reflexivity|].
    cbn. apply String.eqb_refl.
  - apply sync_upsert_keeps_has. apply select_oid_has. rewrite E. discriminate.
Qed.

Lemma sync_upsert_all_cons (notes pics ships : list (string * string)) (b : Basic)
    (bs : list Basic) (w : AppWorld) :
  sync_upsert_all notes pics ships (b :: bs) w =
    sync_upsert_all notes pics ships bs (sync_upsert (now w) notes pics ships b w).
Proof. reflexivity. Qed.

Lemma sync_upsert_all_keeps_has (notes pics ships : list (string * string))
    (bs : list Basic) (o : string) (w : AppWorld) :
  has_oid o w -> has_oid o (sync_upsert_all notes pics ships bs w).
Proof.
  revert w. induction bs as [|b bs IH]; intros w H; [exact H|].
  rewrite sync_upsert_all_cons. apply IH. apply sync_upsert_keeps_has. exact H.
Qed.

Lemma sync_upsert_all_has (notes pics ships : list (string * string))
    (bs : list Basic) (w : AppWorld) :
  forall b, In b bs -> has_oid (b_oid b) (sync_upsert_all notes pics ships bs w).
Proof.
  revert w. induction bs as [|b0 bs IH]; intros w b Hb; [destruct Hb|].
  rewrite sync_upsert_all_cons. destruct Hb as [<-|Hb].
  - apply sync_upsert_all_keeps_has. apply sync_upsert_has.
  - apply IH. exact Hb.
Qed.

Lemma sync_upsert_all_updates (notes pics ships : list (string * string))
    (bs : list Basic) (w : AppWorld) :
  (forall b, In b bs -> has_oid (b_oid b) w) ->
  length (db (sync_upsert_all notes pics ships bs w)) = length (db w) /\
  exists ops, db_log (sync_upsert_all notes pics ships bs w) = (ops ++ db_log w)%list /\
    length ops = length bs /\ Forall (fun op => exists c v p, op = DbUpdate c v p) ops.
Proof.
  revert w. induction bs as [|b bs IH]; intros w H.
  - split; [reflexivity|]. exists []. repeat split; constructor.
  - rewrite sync_upsert_all_cons.
    assert (Hb : db_select_eq "orden_meli" (JStr (b_oid b)) w <> [])
      by (apply select_oid_has; apply H; left; reflexivity).
    set (w1 := sync_upsert (now w) notes pics ships b w).
    assert (H1 : forall b', In b' bs -> has_oid (b_oid b') w1)
      by (intros b' Hb'; apply sync_upsert_keeps_has; apply H; right; exact Hb').
    destruct (IH w1 H1) as [Hlen [ops [Hlog [Hn Hall]]]].
    unfold w1, sync_upsert in *.
    destruct (db_select_eq "orden_meli" (JStr (b_oid b)) w) as [|ex exs]; [contradiction|].
    unfold db_update_eq in *. cbn [db db_log] in Hlen, Hlog.
    split; [rewrite Hlen; apply length_map|].
    exists (ops ++ [DbUpdate "id" (col ex "id") (sync_patch (row_sync (now w) notes pics ships b))])%list.
    split; [rewrite Hlog, <- app_assoc; reflexivity|].
    split; [rewrite length_app, Hn; cbn; lia|].
    apply Forall_app. split; [exact Hall|]. repeat constructor. eauto.
Qed.

(** X25: running the sync upsert a second time over the same orders adds
    no record: every order is found by [orden_meli], so the second pass
    writes one update per order and no insert. *)
Theorem sync_rerun_only_updates (notes pics ships : list (string * string))
    (bs : list Basic) (w : AppWorld) :
  let w1 := sync_upsert_all notes pics ships bs w in
  let w2 := sync_upsert_all notes pics ships bs w1 in
  length (db w2) = length (db w1) /\
  exists ops, db_log w2 = (ops ++ db_log w1)%list /\ length ops = length bs /\
    Forall (fun op => exists c v p, op = DbUpdate c v p) ops.
Proof.
  intros w1 w2. apply sync_upsert_all_updates.
  intros b Hb. apply sync_upsert_all_has. exact Hb.
Qed.

End AppProps.
